(** * Learning-management-system front end: Course Builder and shared context

    A shallow embedding of the educator "add course" component
    (client/src/components/pages/educator/AddCourse.jsx) and of the helper
    functions of the shared application context (the two AppContext
    variants of the repository), followed by the properties proved about
    them.

    Modelling conventions.
    - A JavaScript string is the list of its UTF-16 code units ([jsstr]).
    - Integral JavaScript numbers (orders, lengths, sizes, star ratings) are
      unbounded integers; all of them stay far below 2^53, where the
      double arithmetic of the engine is exact.  The one division of the
      code ([calculateRating]) is modelled with binary64 rounding.
    - A handler of a React component is a function from the component state
      (and the answers of the environment it consults: the prompt, uniqid,
      the object-URL registry, the network) to the next state and the list
      of effects it issued, in program order. *)

From Stdlib Require Import ZArith NArith QArith String Ascii DecimalString.
From stdpp Require Import base numbers list option sorting gmap.

Local Open Scope Z_scope.

(** ** JavaScript strings *)

Module Js.

Definition jsstr := list N.

(** An ASCII literal of the source as a sequence of code units. *)
Definition lit (s : string) : jsstr :=
  (fun a => N_of_ascii a) <$> list_ascii_of_string s.

(** WhiteSpace and LineTerminator code units, the characters removed by
    [String.prototype.trim]. *)
Definition is_white (c : N) : bool :=
  ((9 <=? c) && (c <=? 13))%N
  || (c =? 32)%N || (c =? 160)%N || (c =? 5760)%N
  || ((8192 <=? c) && (c <=? 8202))%N
  || (c =? 8232)%N || (c =? 8233)%N || (c =? 8239)%N || (c =? 8287)%N
  || (c =? 12288)%N || (c =? 65279)%N.

Fixpoint trimStart (s : jsstr) : jsstr :=
  match s with
  | c :: r => if is_white c then trimStart r else s
  | [] => []
  end.

Definition trim (s : jsstr) : jsstr :=
  reverse (trimStart (reverse (trimStart s))).

(** ToBoolean on a string: only the empty string is falsy. *)
Definition truthy (s : jsstr) : bool :=
  match s with [] => false | _ :: _ => true end.

(** [s.startsWith(p)] *)
Fixpoint startsWith (p s : jsstr) : bool :=
  match p, s with
  | [], _ => true
  | a :: p', b :: s' => (a =? b)%N && startsWith p' s'
  | _ :: _, [] => false
  end.

(** [a || b] on possibly undefined strings. *)
Definition or_else (a : option jsstr) (b : jsstr) : jsstr :=
  match a with
  | Some s => if truthy s then s else b
  | None => b
  end.

(** [Array.prototype.splice(start, 1)] on a copy: a negative [start]
    counts from the end, and a [start] past the end removes nothing. *)
Definition splice1 {A} (start : Z) (l : list A) : list A :=
  let len := Z.of_nat (length l) in
  let k := if start <? 0 then Z.max (len + start) 0 else Z.min start len in
  delete (Z.to_nat k) l.

(** The value of an [<input type="number">]: the browser keeps it either
    empty or a valid floating-point number, here given by its numeric
    value. *)
Inductive NumberInput :=
| Blank
| Num (v : Q).

(** A settled [await]. *)
Inductive Awaited (A : Type) :=
| Resolved (a : A)
| Rejected (status : option Z) (server_message : option jsstr)
           (message : option jsstr).
Arguments Resolved {A} a.
Arguments Rejected {A} status server_message message.

End Js.

Import Js.

(** ** The Course Builder: AddCourse.jsx *)

Module Draft.
(** [lectureDetails], the fields of the lecture modal. *)
Record t := mk {
  lectureTitle : jsstr;
  lectureDuration : NumberInput;
  lectureUrl : jsstr;
  isPreviewFree : bool
}.

Definition empty : t :=
  {| lectureTitle := []; lectureDuration := Blank; lectureUrl := [];
     isPreviewFree := false |}.
End Draft.

Record Lecture := {
  lectureId : jsstr;
  lectureTitle : jsstr;
  lectureDuration : Q;
  lectureUrl : jsstr;
  isPreviewFree : bool;
  lectureOrder : Z
}.

Record Chapter := {
  chapterId : jsstr;
  chapterTitle : jsstr;
  chapterContent : list Lecture;
  collapsed : bool;
  chapterOrder : Z
}.

Record File := {
  file_type : jsstr;
  file_size : N
}.

Record State := {
  courseTitle : jsstr;
  coursePrice : NumberInput;
  discount : NumberInput;
  image : option File;
  imagePreview : jsstr;
  chapters : list Chapter;
  showPopup : bool;
  currentChapterId : option jsstr;
  lectureDetails : Draft.t;
  (** [quillRef.current.root.innerHTML]; [None] while the editor does not
      exist *)
  quill : option jsstr
}.

(** The multipart body of the course-creation request. *)
Record CourseData := {
  cd_courseTitle : jsstr;
  cd_courseDescription : jsstr;
  cd_coursePrice : NumberInput;
  cd_discount : NumberInput;
  cd_courseContent : list Chapter
}.

Inductive Effect :=
| ToastError (m : option jsstr)
| ToastSuccess (m : option jsstr)
| RevokeObjectURL (u : jsstr)
| CreateObjectURL (f : File) (u : jsstr)
| GetToken
| Post (d : CourseData) (img : File) (token : option jsstr).

Definition initial : State :=
  {| courseTitle := []; coursePrice := Num 0; discount := Num 0;
     image := None; imagePreview := []; chapters := [];
     showPopup := false; currentChapterId := None;
     lectureDetails := Draft.empty; quill := None |}.

Definition set_chapters (cs : list Chapter) (s : State) : State :=
  {| courseTitle := courseTitle s; coursePrice := coursePrice s;
     discount := discount s; image := image s;
     imagePreview := imagePreview s; chapters := cs;
     showPopup := showPopup s; currentChapterId := currentChapterId s;
     lectureDetails := lectureDetails s; quill := quill s |}.

Definition set_modal (open : bool) (cid : option jsstr) (d : Draft.t)
    (s : State) : State :=
  {| courseTitle := courseTitle s; coursePrice := coursePrice s;
     discount := discount s; image := image s;
     imagePreview := imagePreview s; chapters := chapters s;
     showPopup := open; currentChapterId := cid;
     lectureDetails := d; quill := quill s |}.

Definition set_thumbnail (f : option File) (u : jsstr) (s : State) : State :=
  {| courseTitle := courseTitle s; coursePrice := coursePrice s;
     discount := discount s; image := f;
     imagePreview := u; chapters := chapters s;
     showPopup := showPopup s; currentChapterId := currentChapterId s;
     lectureDetails := lectureDetails s; quill := quill s |}.

Definition set_form (title : jsstr) (price disc : NumberInput)
    (html : option jsstr) (s : State) : State :=
  {| courseTitle := title; coursePrice := price;
     discount := disc; image := image s;
     imagePreview := imagePreview s; chapters := chapters s;
     showPopup := showPopup s; currentChapterId := currentChapterId s;
     lectureDetails := lectureDetails s; quill := html |}.

Definition with_content (c : list Lecture) (ch : Chapter) : Chapter :=
  {| chapterId := chapterId ch; chapterTitle := chapterTitle ch;
     chapterContent := c; collapsed := collapsed ch;
     chapterOrder := chapterOrder ch |}.

Definition with_collapsed (b : bool) (ch : Chapter) : Chapter :=
  {| chapterId := chapterId ch; chapterTitle := chapterTitle ch;
     chapterContent := chapterContent ch; collapsed := b;
     chapterOrder := chapterOrder ch |}.

Definition with_order (k : Z) (l : Lecture) : Lecture :=
  {| lectureId := lectureId l; lectureTitle := lectureTitle l;
     lectureDuration := lectureDuration l; lectureUrl := lectureUrl l;
     isPreviewFree := isPreviewFree l; lectureOrder := k |}.

(** *** handleChapter *)

(** [action === "add"]: [answer] is what [prompt] returned ([None] when it
    was cancelled) and [fresh] what [uniqid()] returns. *)
Definition addChapter (answer : option jsstr) (fresh : jsstr) (s : State)
    : State :=
  match answer with
  | Some title =>
      if truthy title then
        let newChapter :=
          {| chapterId := fresh;
             chapterTitle := title;
             chapterContent := [];
             collapsed := false;
             chapterOrder :=
               match last (chapters s) with
               | Some c => chapterOrder c + 1
               | None => 1
               end |} in
        set_chapters (chapters s ++ [newChapter]) s
      else s
  | None => s
  end.

(** [action === "remove"] *)
Definition removeChapter (id : jsstr) (s : State) : State :=
  set_chapters
    (filter (fun chapter => chapterId chapter ≠ id) (chapters s)) s.

(** [action === "toggle"] *)
Definition toggleChapter (id : jsstr) (s : State) : State :=
  set_chapters
    ((fun chapter =>
        if bool_decide (chapterId chapter = id)
        then with_collapsed (negb (collapsed chapter)) chapter
        else chapter) <$> chapters s) s.

(** [handleChapter(action, chapterId)], with the answers of [prompt] and
    [uniqid] that the "add" branch consults. *)
Definition handleChapter (action : jsstr) (chapterId : jsstr)
    (answer : option jsstr) (fresh : jsstr) (s : State) : State :=
  if bool_decide (action = lit "add") then addChapter answer fresh s
  else if bool_decide (action = lit "remove") then removeChapter chapterId s
  else if bool_decide (action = lit "toggle") then toggleChapter chapterId s
  else s.

(** *** handleLecture *)

(** [action === "add"]: binds the modal to the chapter and opens it. *)
Definition addLecture (id : jsstr) (s : State) : State :=
  set_modal true (Some id) (lectureDetails s) s.

(** The [forEach] that rewrites [lectureOrder] after a removal. *)
Definition renumber (c : list Lecture) : list Lecture :=
  imap (fun index lecture => with_order (Z.of_nat index + 1) lecture) c.

(** [action === "remove"] *)
Definition removeLecture (id : jsstr) (lectureIndex : Z) (s : State)
    : State :=
  set_chapters
    ((fun chapter =>
        if bool_decide (chapterId chapter = id)
        then
          let updatedContent := splice1 lectureIndex (chapterContent chapter) in
          with_content (renumber updatedContent) chapter
        else chapter) <$> chapters s) s.

(** [handleLecture(action, chapterId, lectureIndex)] *)
Definition handleLecture (action : jsstr) (chapterId : jsstr)
    (lectureIndex : Z) (s : State) : State :=
  if bool_decide (action = lit "add") then addLecture chapterId s
  else if bool_decide (action = lit "remove")
       then removeLecture chapterId lectureIndex s
       else s.

(** *** handleSaveLecture *)

Definition newLecture (fresh : jsstr) (d : Draft.t) (v : Q)
    (chapter : Chapter) : Lecture :=
  {| lectureId := fresh;
     lectureTitle := trim (Draft.lectureTitle d);
     lectureDuration := v;
     lectureUrl := trim (Draft.lectureUrl d);
     isPreviewFree := Draft.isPreviewFree d;
     lectureOrder := Z.of_nat (length (chapterContent chapter)) + 1 |}.

(** The [chapters.map] of the handler.  [uniqid] is called once for each
    chapter whose id matches; [ids k] is what its [k]-th call returns. *)
Fixpoint saveInto (cid : jsstr) (d : Draft.t) (v : Q) (ids : nat → jsstr)
    (k : nat) (cs : list Chapter) : list Chapter :=
  match cs with
  | [] => []
  | chapter :: rest =>
      if bool_decide (chapterId chapter = cid)
      then with_content
             (chapterContent chapter ++ [newLecture (ids k) d v chapter])
             chapter
           :: saveInto cid d v ids (S k) rest
      else chapter :: saveInto cid d v ids k rest
  end.

Definition msg_lecture_title : jsstr := lit "Please enter lecture title".
Definition msg_lecture_duration : jsstr :=
  lit "Please enter valid lecture duration".
Definition msg_lecture_url : jsstr := lit "Please enter lecture URL".

Definition handleSaveLecture (ids : nat → jsstr) (s : State)
    : State * list Effect :=
  match currentChapterId s with
  | None => (s, [])
  | Some cid =>
      if negb (truthy cid) then (s, [])
      else
        let d := lectureDetails s in
        if negb (truthy (trim (Draft.lectureTitle d))) then
          (s, [ToastError (Some msg_lecture_title)])
        else
          match Draft.lectureDuration d with
          | Blank => (s, [ToastError (Some msg_lecture_duration)])
          | Num v =>
              if Qle_bool v 0 then
                (s, [ToastError (Some msg_lecture_duration)])
              else if negb (truthy (trim (Draft.lectureUrl d))) then
                (s, [ToastError (Some msg_lecture_url)])
              else
                let updatedChapters := saveInto cid d v ids 0 (chapters s) in
                (set_modal false None Draft.empty
                   (set_chapters updatedChapters s), [])
          end
  end.

(** *** handleImageChange *)

Definition msg_image_type : jsstr := lit "Please select a valid image file".
Definition msg_image_size : jsstr :=
  lit "Image file size should be less than 5MB".

(** [file] is [e.target.files[0]] and [previewUrl] the URL that
    [URL.createObjectURL] hands out when it is called. *)
Definition handleImageChange (file : option File) (previewUrl : jsstr)
    (s : State) : State * list Effect :=
  match file with
  | None => (s, [])
  | Some f =>
      if negb (startsWith (lit "image/") (file_type f)) then
        (s, [ToastError (Some msg_image_type)])
      else if (5 * 1024 * 1024 <? file_size f)%N then
        (s, [ToastError (Some msg_image_size)])
      else
        (set_thumbnail (Some f) previewUrl s,
         (if truthy (imagePreview s)
          then [RevokeObjectURL (imagePreview s)] else [])
         ++ [CreateObjectURL f previewUrl])
  end.

(** *** The preview clean-up effect

    [useEffect(() => () => { if (imagePreview) revoke(imagePreview) },
    [imagePreview])]: React runs the clean-up of the previous render when
    the dependency changed. *)
Definition previewCleanup (prev next : State) : list Effect :=
  if bool_decide (imagePreview prev = imagePreview next) then []
  else if truthy (imagePreview prev)
       then [RevokeObjectURL (imagePreview prev)] else [].

(** *** handleSubmit *)

Record PostResponse := {
  success : bool;
  message : option jsstr
}.

Definition msg_title : jsstr := lit "Please enter course title".
Definition msg_thumbnail : jsstr := lit "Please select a course thumbnail".
Definition msg_description : jsstr := lit "Please enter course description".
Definition msg_chapter : jsstr := lit "Please add at least one chapter".
Definition msg_lectures : jsstr :=
  lit "All chapters must have at least one lecture".
Definition msg_failed : jsstr := lit "Failed to add course".

(** [Number(x)] of a number-input value: the empty string converts to 0. *)
Definition toNumber (x : NumberInput) : NumberInput :=
  match x with
  | Blank => Num 0
  | Num v => Num v
  end.

Definition description_missing (s : State) : bool :=
  match quill s with
  | None => true
  | Some innerHTML => negb (truthy (trim innerHTML))
  end.

Definition chaptersWithoutLectures (s : State) : list Chapter :=
  filter (fun chapter => length (chapterContent chapter) = 0%nat) (chapters s).

Definition reset (s : State) : State :=
  {| courseTitle := []; coursePrice := Num 0; discount := Num 0;
     image := None; imagePreview := []; chapters := [];
     showPopup := showPopup s; currentChapterId := currentChapterId s;
     lectureDetails := lectureDetails s;
     quill := match quill s with Some _ => Some [] | None => None end |}.

(** [token] is the outcome of [await getToken()] and [reply] the outcome of
    [await axios.post(...)]; each is consulted only if control reaches it. *)
Definition handleSubmit (token : Awaited (option jsstr))
    (reply : Awaited PostResponse) (s : State) : State * list Effect :=
  if negb (truthy (trim (courseTitle s))) then
    (s, [ToastError (Some msg_title)])
  else
    match image s with
    | None => (s, [ToastError (Some msg_thumbnail)])
    | Some img =>
        match quill s with
        | None => (s, [ToastError (Some msg_description)])
        | Some innerHTML =>
            if negb (truthy (trim innerHTML)) then
              (s, [ToastError (Some msg_description)])
            else if (length (chapters s) =? 0)%nat then
              (s, [ToastError (Some msg_chapter)])
            else if (0 <? length (chaptersWithoutLectures s))%nat then
              (s, [ToastError (Some msg_lectures)])
            else
              let courseData :=
                {| cd_courseTitle := trim (courseTitle s);
                   cd_courseDescription := innerHTML;
                   cd_coursePrice := toNumber (coursePrice s);
                   cd_discount := toNumber (discount s);
                   cd_courseContent := chapters s |} in
              match token with
              | Rejected _ server_message _ =>
                  (s, [GetToken;
                       ToastError (Some (or_else server_message msg_failed))])
              | Resolved tok =>
                  match reply with
                  | Rejected _ server_message _ =>
                      (s, [GetToken; Post courseData img tok;
                           ToastError
                             (Some (or_else server_message msg_failed))])
                  | Resolved data =>
                      if success data then
                        (reset s,
                         [GetToken; Post courseData img tok;
                          ToastSuccess (message data)]
                         ++ (if truthy (imagePreview s)
                             then [RevokeObjectURL (imagePreview s)]
                             else []))
                      else
                        (s, [GetToken; Post courseData img tok;
                             ToastError (message data)])
                  end
              end
        end
    end.

(** *** The component as a transition system *)

Inductive Event :=
| EditForm (title : jsstr) (price disc : NumberInput) (html : option jsstr)
| ChapterAdd (answer : option jsstr) (fresh : jsstr)
| ChapterRemove (id : jsstr)
| ChapterToggle (id : jsstr)
| LectureAdd (id : jsstr)
| LectureRemove (id : jsstr) (lectureIndex : Z)
| EditLecture (d : Draft.t)
| CloseModal
| SaveLecture (ids : nat → jsstr)
| ImageChange (file : option File) (previewUrl : jsstr)
| Submit (token : Awaited (option jsstr)) (reply : Awaited PostResponse).

(** The handler an event invokes. *)
Definition handle (ev : Event) (s : State) : State * list Effect :=
  match ev with
  | EditForm title price disc html => (set_form title price disc html s, [])
  | ChapterAdd answer fresh =>
      (handleChapter (lit "add") [] answer fresh s, [])
  | ChapterRemove id => (handleChapter (lit "remove") id None [] s, [])
  | ChapterToggle id => (handleChapter (lit "toggle") id None [] s, [])
  | LectureAdd id => (handleLecture (lit "add") id 0 s, [])
  | LectureRemove id i => (handleLecture (lit "remove") id i s, [])
  | EditLecture d => (set_modal (showPopup s) (currentChapterId s) d s, [])
  | CloseModal => (set_modal false None Draft.empty s, [])
  | SaveLecture ids => handleSaveLecture ids s
  | ImageChange file previewUrl => handleImageChange file previewUrl s
  | Submit token reply => handleSubmit token reply s
  end.

(** The handler, then the render it causes with its effect clean-up. *)
Definition step (ev : Event) (s : State) : State * list Effect :=
  let '(s', fx) := handle ev s in (s', fx ++ previewCleanup s s').

Fixpoint run (evs : list Event) (s : State) : State * list Effect :=
  match evs with
  | [] => (s, [])
  | ev :: rest =>
      let '(s1, fx1) := step ev s in
      let '(s2, fx2) := run rest s1 in
      (s2, fx1 ++ fx2)
  end.

(** The object URLs that are alive after a list of effects. *)
Fixpoint liveURLs (fx : list Effect) (live : gset jsstr) : gset jsstr :=
  match fx with
  | [] => live
  | CreateObjectURL _ u :: rest => liveURLs rest ({[u]} ∪ live)
  | RevokeObjectURL u :: rest => liveURLs rest (live ∖ {[u]})
  | _ :: rest => liveURLs rest live
  end.

(** How many times [URL.revokeObjectURL(u)] is called. *)
Fixpoint revocations (u : jsstr) (fx : list Effect) : nat :=
  match fx with
  | [] => 0
  | RevokeObjectURL v :: rest =>
      ((if bool_decide (v = u) then 1 else 0) + revocations u rest)%nat
  | _ :: rest => revocations u rest
  end.

(** Whether an event is a chapter removal. *)
Definition is_removal (ev : Event) : bool :=
  match ev with
  | ChapterRemove _ => true
  | _ => false
  end.

(** *** The validation rules of a submission *)

Inductive SubmitRule :=
| RuleTitle
| RuleDescription
| RuleThumbnail
| RuleChapter
| RuleLectures.

(** When a draft breaks a rule (the conditions of [handleSubmit]). *)
Definition violated (r : SubmitRule) (s : State) : bool :=
  match r with
  | RuleTitle => negb (truthy (trim (courseTitle s)))
  | RuleDescription => description_missing s
  | RuleThumbnail => match image s with None => true | Some _ => false end
  | RuleChapter => match chapters s with [] => true | _ :: _ => false end
  | RuleLectures =>
      existsb (fun chapter =>
                 match chapterContent chapter with
                 | [] => true
                 | _ :: _ => false
                 end) (chapters s)
  end.

Definition rule_message (r : SubmitRule) : jsstr :=
  match r with
  | RuleTitle => msg_title
  | RuleDescription => msg_description
  | RuleThumbnail => msg_thumbnail
  | RuleChapter => msg_chapter
  | RuleLectures => msg_lectures
  end.

Definition first_failing (order : list SubmitRule) (s : State)
    : option SubmitRule :=
  List.find (fun r => violated r s) order.

(** The order in which [handleSubmit] tests the rules. *)
Definition code_order : list SubmitRule :=
  [RuleTitle; RuleThumbnail; RuleDescription; RuleChapter; RuleLectures].

(** The order of the specification: title, description, thumbnail,
    chapters, lectures. *)
Definition claimed_order : list SubmitRule :=
  [RuleTitle; RuleDescription; RuleThumbnail; RuleChapter; RuleLectures].

(** A submission that got past validation and then failed: the token or
    the request threw, or the server answered [success: false]. *)
Definition submit_failed (token : Awaited (option jsstr))
    (reply : Awaited PostResponse) : bool :=
  match token with
  | Rejected _ _ _ => true
  | Resolved _ =>
      match reply with
      | Rejected _ _ _ => true
      | Resolved data => negb (success data)
      end
  end.

(** The message [handleSubmit] shows for a failed submission. *)
Definition failure_message (token : Awaited (option jsstr))
    (reply : Awaited PostResponse) : option jsstr :=
  match token with
  | Rejected _ server_message _ => Some (or_else server_message msg_failed)
  | Resolved _ =>
      match reply with
      | Rejected _ server_message _ =>
          Some (or_else server_message msg_failed)
      | Resolved data => message data
      end
  end.

Definition is_network (e : Effect) : bool :=
  match e with
  | GetToken | Post _ _ _ => true
  | _ => false
  end.

(** A lecture duration that is a positive number. *)
Definition positive_duration (x : NumberInput) : Prop :=
  match x with
  | Blank => False
  | Num v => (0 < v)%Q
  end.

(** [chapter'] is [chapter] with one lecture, made from the modal fields
    [d], appended to its content. *)
Definition lecture_appended (d : Draft.t) (chapter chapter' : Chapter)
    : Prop :=
  ∃ l : Lecture,
    chapterContent chapter' = chapterContent chapter ++ [l]
    ∧ lectureOrder l = Z.of_nat (length (chapterContent chapter)) + 1
    ∧ lectureTitle l = trim (Draft.lectureTitle d)
    ∧ Draft.lectureDuration d = Num (lectureDuration l)
    ∧ lectureUrl l = trim (Draft.lectureUrl d)
    ∧ isPreviewFree l = Draft.isPreviewFree d
    ∧ chapterId chapter' = chapterId chapter
    ∧ chapterTitle chapter' = chapterTitle chapter
    ∧ collapsed chapter' = collapsed chapter
    ∧ chapterOrder chapter' = chapterOrder chapter.

(** The fields of the draft outside the lecture modal and the chapters. *)
Definition same_form (s s' : State) : Prop :=
  courseTitle s' = courseTitle s ∧ coursePrice s' = coursePrice s
  ∧ discount s' = discount s ∧ image s' = image s
  ∧ imagePreview s' = imagePreview s ∧ quill s' = quill s.

(** *** Numbering *)

(** The orders of a lecture list are 1..N in list order. *)
Definition numbered (c : list Lecture) : Prop :=
  lectureOrder <$> c = seqZ 1 (Z.of_nat (length c)).

Definition orders (cs : list Chapter) : list Z := chapterOrder <$> cs.

(** The orders of a chapter list are 1..N in list order. *)
Definition contiguous (cs : list Chapter) : Prop :=
  orders cs = seqZ 1 (Z.of_nat (length cs)).

(** *** Sample data *)

Definition id_a : jsstr := lit "lz4k2a0".
Definition id_b : jsstr := lit "lz4k2b7".

(** Two chapters are added and the first one is removed. *)
Definition remove_first_of_two : list Event :=
  [ChapterAdd (Some (lit "Intro")) id_a;
   ChapterAdd (Some (lit "Basics")) id_b;
   ChapterRemove id_a].

(** Two chapters are added, one prompt is cancelled, the first chapter is
    folded. *)
Definition add_two_chapters : list Event :=
  [ChapterAdd (Some (lit "Intro")) id_a;
   ChapterAdd None id_b;
   ChapterAdd (Some (lit "Basics")) id_b;
   ChapterToggle id_a].

Definition png_2mb : File :=
  {| file_type := lit "image/png"; file_size := 2 * 1024 * 1024 |}.
Definition jpeg_6mb : File :=
  {| file_type := lit "image/jpeg"; file_size := 6 * 1024 * 1024 |}.
Definition pdf_1kb : File :=
  {| file_type := lit "application/pdf"; file_size := 1024 |}.

Definition blob_1 : jsstr := lit "blob:http://localhost:5173/0b1e6c1a".
Definition blob_2 : jsstr := lit "blob:http://localhost:5173/7f3d9a52".

Definition sample_lecture : Lecture :=
  {| lectureId := lit "lz4k2c3"; lectureTitle := lit "Welcome";
     lectureDuration := 12; lectureUrl := lit "https://youtu.be/abc";
     isPreviewFree := true; lectureOrder := 1 |}.

Definition sample_chapter : Chapter :=
  {| chapterId := id_a; chapterTitle := lit "Intro";
     chapterContent := [sample_lecture]; collapsed := false;
     chapterOrder := 1 |}.

(** A draft that passes every rule of the submission. *)
Definition complete_draft : State :=
  {| courseTitle := lit "Linear algebra"; coursePrice := Num 100;
     discount := Num 10; image := Some png_2mb; imagePreview := blob_1;
     chapters := [sample_chapter]; showPopup := false;
     currentChapterId := None; lectureDetails := Draft.empty;
     quill := Some (lit "<p>Vectors and matrices</p>") |}.

(** The same draft without chapters. *)
Definition draft_without_chapters : State := set_chapters [] complete_draft.

(** A draft with a title but neither a thumbnail nor a description. *)
Definition draft_title_only : State :=
  set_form (lit "Linear algebra") (Num 100) (Num 10) (Some []) initial.

Definition token_ok : Awaited (option jsstr) := Resolved (Some (lit "eyJhbGciOi")).
Definition reply_ok : Awaited PostResponse :=
  Resolved {| success := true; message := Some (lit "Course Added") |}.
Definition reply_refused : Awaited PostResponse :=
  Resolved {| success := false; message := Some (lit "Unauthorized Access") |}.
Definition reply_thrown : Awaited PostResponse :=
  Rejected (Some 500) None (Some (lit "Request failed with status code 500")).

(** The lecture modal, opened on the sample chapter. *)
Definition modal_with (d : Draft.t) : State :=
  set_modal true (Some id_a) d complete_draft.

Definition draft_zero_duration : Draft.t :=
  {| Draft.lectureTitle := lit "Vectors"; Draft.lectureDuration := Num 0;
     Draft.lectureUrl := lit "https://youtu.be/xyz";
     Draft.isPreviewFree := false |}.

Definition draft_blank_title : Draft.t :=
  {| Draft.lectureTitle := lit "   "; Draft.lectureDuration := Num 15;
     Draft.lectureUrl := lit "https://youtu.be/xyz";
     Draft.isPreviewFree := false |}.

Definition draft_valid : Draft.t :=
  {| Draft.lectureTitle := lit " Vectors "; Draft.lectureDuration := Num 15;
     Draft.lectureUrl := lit "https://youtu.be/xyz";
     Draft.isPreviewFree := false |}.

Definition fresh_ids (k : nat) : jsstr := lit "lz4k2d" ++ [48 + N.of_nat k]%N.

(** A first thumbnail is chosen, then a second one. *)
Definition first_thumbnail : Event := ImageChange (Some png_2mb) blob_1.
Definition second_thumbnail : Event := ImageChange (Some png_2mb) blob_2.

(** One chapter, three lectures saved through the modal, the first lecture
    removed again. *)
Definition three_lectures_remove_first : list Event :=
  [ChapterAdd (Some (lit "Intro")) id_a;
   LectureAdd id_a; EditLecture draft_valid; SaveLecture fresh_ids;
   LectureAdd id_a; EditLecture draft_valid; SaveLecture fresh_ids;
   LectureAdd id_a; EditLecture draft_valid; SaveLecture fresh_ids;
   LectureRemove id_a 0].

(** ** The shared application context *)

(** What a helper of the context returns. *)
Inductive JsValue :=
| Undefined
| Number (z : Z)
| Str (s : jsstr).

(** *** binary64 division and [toFixed(1)] *)

Module Double.

(** A finite double: [mantissa * 2 ^ exponent]. *)
Record t := mk {
  mantissa : Z;
  exponent : Z
}.

(** [floor (log2 (n / d))] for positive [n] and [d]. *)
Definition floor_log2 (n d : Z) : Z :=
  let k := Z.log2 n - Z.log2 d in
  if (if 0 <=? k then d * 2 ^ k <=? n else d <=? n * 2 ^ (- k))
  then k else k - 1.

(** The integer nearest to [n / d], ties to the even one. *)
Definition round_half_even (n d : Z) : Z :=
  let q := n / d in
  let r := n mod d in
  if 2 * r <? d then q
  else if d <? 2 * r then q + 1
  else if Z.even q then q else q + 1.

(** [n / d] on doubles, for integers [0 <= n] and [0 < d] that are
    doubles themselves (below 2^53): the quotient rounded to a 53-bit
    significand, round to nearest, ties to even.  The quotients of the
    code lie between 2^-32 and 2^53, where binary64 has this
    precision. *)
Definition div (n d : Z) : t :=
  if n =? 0 then {| mantissa := 0; exponent := 0 |}
  else
    let e := floor_log2 n d - 52 in
    if 0 <=? e
    then {| mantissa := round_half_even n (d * 2 ^ e); exponent := e |}
    else {| mantissa := round_half_even (n * 2 ^ (- e)) d; exponent := e |}.

(** The integer [n] of [Number.prototype.toFixed(1)]: the one for which
    [n / 10 - x] is closest to zero, the larger one if there are two;
    that is [floor (10 x + 1/2)]. *)
Definition nearest_tenth (x : t) : Z :=
  if 0 <=? exponent x
  then 10 * mantissa x * 2 ^ exponent x
  else (20 * mantissa x + 2 ^ (- exponent x)) / (2 * 2 ^ (- exponent x)).

Definition decimal (n : Z) : jsstr :=
  lit (NilZero.string_of_uint (N.to_uint (Z.to_N n))).

(** [n] tenths written with one digit after the point, as [toFixed(1)]
    writes them: ["4.0"] for 40, ["0.7"] for 7. *)
Definition tenths (n : Z) : jsstr :=
  decimal (n / 10) ++ lit "." ++ decimal (n mod 10).

(** [x.toFixed(1)] for [0 <= x < 10^21]. *)
Definition toFixed1 (x : t) : jsstr := tenths (nearest_tenth x).

End Double.

(** *** Course documents as they are fetched *)

Module Fetched.

Record Rating := {
  rating : Z
}.

Record Chapter := {
  chapterContent : option (list Lecture)
}.

(** Any of the arrays may be missing from a document. *)
Record Course := {
  courseRatings : option (list Rating);
  courseContent : option (list (option Chapter))
}.

End Fetched.

(** The helpers are the same in both variants of the context. *)

Definition calculateRating (course : option Fetched.Course) : JsValue :=
  match course with
  | None => Number 0
  | Some c =>
      match Fetched.courseRatings c with
      | None => Number 0
      | Some ratings =>
          if (length ratings =? 0)%nat then Number 0
          else
            let total :=
              fold_left (fun sum r => sum + Fetched.rating r) ratings 0 in
            Str (Double.toFixed1
                   (Double.div total (Z.of_nat (length ratings))))
      end
  end.

(** [chapter?.chapterContent?.length || 0] *)
Definition lectures_of (chapter : option Fetched.Chapter) : Z :=
  match chapter with
  | Some ch =>
      match Fetched.chapterContent ch with
      | Some content => Z.of_nat (length content)
      | None => 0
      end
  | None => 0
  end.

Definition calculateNoOfLectures (course : option Fetched.Course) : JsValue :=
  match course with
  | None => Undefined
  | Some c =>
      match Fetched.courseContent c with
      | None => Undefined
      | Some content =>
          Number (fold_left (fun sum chapter => sum + lectures_of chapter)
                            content 0)
      end
  end.

(** *** fetchUserData *)

Record EmailAddress := {
  emailAddress : option jsstr
}.

(** The signed-in user of the authentication provider. *)
Record ClerkUser := {
  id : jsstr;
  emailAddresses : option (list EmailAddress);
  firstName : option jsstr;
  lastName : option jsstr
}.

(** The user document of the backend, kept as it was received. *)
Record BackendUser := {
  document : jsstr
}.

(** What [userData] holds: a document of the backend, or the profile the
    client makes up from the session. *)
Inductive UserData :=
| FromBackend (user : BackendUser)
| LocalProfile (clerkId : jsstr) (email firstName lastName : option jsstr)
               (enrolledCourses : list BackendUser).

Record UserResponse := {
  r_success : bool;
  r_user : option BackendUser;
  r_message : option jsstr
}.

Record Context := {
  userData : option UserData;
  userDataLoading : bool
}.

Definition msg_login : jsstr := lit "Authentication failed. Please login again.".
Definition msg_profile : jsstr := lit "Failed to load user profile".
Definition msg_user_data : jsstr := lit "Failed to load user data".

(** [user.emailAddresses?.[0]?.emailAddress] *)
Definition first_email (user : ClerkUser) : option jsstr :=
  match emailAddresses user with
  | Some (e :: _) => emailAddress e
  | _ => None
  end.

Definition local_profile (user : ClerkUser) : UserData :=
  LocalProfile (id user) (first_email user) (firstName user) (lastName user)
               [].

Definition token_missing (token : option jsstr) : bool :=
  match token with
  | Some t => negb (truthy t)
  | None => true
  end.

(** The variant with the not-found branch (unnamed/part_001). *)
Module Part001.

Definition fetchUserData (user : option ClerkUser)
    (token : Awaited (option jsstr)) (reply : Awaited UserResponse)
    (c : Context) : Context * list Effect :=
  match user with
  | None => ({| userData := userData c; userDataLoading := false |}, [])
  | Some u =>
      let on_error status server_message message :=
        if bool_decide (status = Some 401) then
          ({| userData := None; userDataLoading := false |},
           [ToastError (Some msg_login)])
        else if bool_decide (status = Some 404) then
          ({| userData := Some (local_profile u);
              userDataLoading := false |}, [])
        else
          ({| userData := userData c; userDataLoading := false |},
           [ToastError
              (Some (or_else server_message (or_else message msg_profile)))])
      in
      match token with
      | Rejected status server_message message =>
          on_error status server_message message
      | Resolved tok =>
          if token_missing tok then
            ({| userData := userData c; userDataLoading := false |},
             [ToastError (Some msg_login)])
          else
            match reply with
            | Rejected status server_message message =>
                on_error status server_message message
            | Resolved data =>
                match r_success data, r_user data with
                | true, Some doc =>
                    ({| userData := Some (FromBackend doc);
                        userDataLoading := false |}, [])
                | _, _ =>
                    ({| userData := Some (local_profile u);
                        userDataLoading := false |}, [])
                end
            end
      end
  end.

End Part001.

(** The variant without it (unnamed/part_002). *)
Module Part002.

Definition fetchUserData (user : option ClerkUser)
    (token : Awaited (option jsstr)) (reply : Awaited UserResponse)
    (c : Context) : Context * list Effect :=
  match user with
  | None => (c, [])
  | Some u =>
      let on_error (status : option Z) server_message :=
        if bool_decide (status = Some 401) then
          ({| userData := None; userDataLoading := false |}, [])
        else
          ({| userData := userData c; userDataLoading := false |},
           [ToastError (Some (or_else server_message msg_profile))])
      in
      match token with
      | Rejected status server_message _ => on_error status server_message
      | Resolved tok =>
          if token_missing tok then
            ({| userData := userData c; userDataLoading := false |},
             [ToastError (Some msg_login)])
          else
            match reply with
            | Rejected status server_message _ =>
                on_error status server_message
            | Resolved data =>
                if r_success data then
                  ({| userData := FromBackend <$> r_user data;
                      userDataLoading := false |}, [])
                else
                  ({| userData := userData c; userDataLoading := false |},
                   [ToastError
                      (Some (or_else (r_message data) msg_user_data))])
            end
      end
  end.

End Part002.

(** The sum of the ratings of a list, and the number of lectures of a
    list of chapters. *)
Definition sum_ratings (ratings : list Fetched.Rating) : Z :=
  foldr (fun r acc => Fetched.rating r + acc) 0 ratings.

Definition sum_lectures (content : list (option Fetched.Chapter)) : Z :=
  foldr (fun chapter acc => lectures_of chapter + acc) 0 content.

(** *** Sample data of the context *)

Definition stars (l : list Z) : list Fetched.Rating :=
  (fun z => {| Fetched.rating := z |}) <$> l.

Definition course_rated (l : list Z) : Fetched.Course :=
  {| Fetched.courseRatings := Some (stars l);
     Fetched.courseContent := Some [] |}.

(** A course document that has no [courseContent]. *)
Definition course_without_content : Fetched.Course :=
  {| Fetched.courseRatings := Some (stars [3; 4; 5]);
     Fetched.courseContent := None |}.

(** Two chapters with one lecture each, one chapter without
    [chapterContent]. *)
Definition course_three_chapters : Fetched.Course :=
  {| Fetched.courseRatings := None;
     Fetched.courseContent :=
       Some [Some {| Fetched.chapterContent := Some [sample_lecture] |};
             Some {| Fetched.chapterContent := None |};
             Some {| Fetched.chapterContent := Some [sample_lecture] |}] |}.

Definition session_user : ClerkUser :=
  {| id := lit "user_2abc";
     emailAddresses := Some [{| emailAddress := Some (lit "ada@example.org") |}];
     firstName := Some (lit "Ada");
     lastName := Some (lit "Lovelace") |}.

Definition signed_in : Context :=
  {| userData := Some (FromBackend {| document := lit "{}" |});
     userDataLoading := false |}.

Definition not_found : Awaited UserResponse :=
  Rejected (Some 404) (Some (lit "User Not Found"))
           (Some (lit "Request failed with status code 404")).

Definition unauthorized : Awaited UserResponse :=
  Rejected (Some 401) None (Some (lit "Request failed with status code 401")).

(** ** Further parts of the Course Builder *)

(** The clean-up of the preview effect when the component unmounts. *)
Definition unmount (s : State) : list Effect :=
  if truthy (imagePreview s) then [RevokeObjectURL (imagePreview s)] else [].

(** How many course-creation requests a list of effects holds. *)
Fixpoint posts (fx : list Effect) : nat :=
  match fx with
  | [] => 0
  | Post _ _ _ :: rest => S (posts rest)
  | _ :: rest => posts rest
  end.

Definition is_submit (ev : Event) : bool :=
  match ev with
  | Submit _ _ => true
  | _ => false
  end.

(** The object URL the browser hands out is never the empty string. *)
Definition url_given (ev : Event) : bool :=
  match ev with
  | ImageChange _ previewUrl => truthy previewUrl
  | _ => true
  end.

Definition chapter_ids (s : State) : list jsstr := chapterId <$> chapters s.

(** [uniqid] hands out an id that no chapter of the draft has yet, along a
    sequence of events. *)
Fixpoint ids_fresh (evs : list Event) (s : State) : Prop :=
  match evs with
  | [] => True
  | ev :: rest =>
      match ev with
      | ChapterAdd _ fresh => fresh ∉ chapter_ids s
      | _ => True
      end
      ∧ ids_fresh rest (step ev s).1
  end.

(** The number of lectures of the whole draft. *)
Definition total_lectures (cs : list Chapter) : nat :=
  sum_list ((fun chapter => length (chapterContent chapter)) <$> cs).

(** A lecture without its sequence number. *)
Definition lecture_data (l : Lecture) : jsstr * jsstr * Q * jsstr * bool :=
  (lectureId l, lectureTitle l, lectureDuration l, lectureUrl l,
   isPreviewFree l).

(** ** Further parts of the shared context *)

(** *** The duration helpers

    [humanizeDuration] belongs to a library; the helpers are given with it
    as a parameter.  The minutes are added up exactly, as the engine does
    for whole minutes. *)

Section Durations.

Variable humanizeDuration : Q → jsstr.

(** The [reduce] of [calculateChapterTime], with its [|| 0] fallbacks. *)
Definition chapter_minutes (chapter : option Fetched.Chapter) : Q :=
  match chapter with
  | Some ch =>
      match Fetched.chapterContent ch with
      | Some content =>
          fold_left (fun acc lec => acc + lectureDuration lec)%Q content 0%Q
      | None => 0%Q
      end
  | None => 0%Q
  end.

Definition calculateChapterTime (chapter : option Fetched.Chapter) : jsstr :=
  let time := chapter_minutes chapter in
  humanizeDuration (time * 60 * 1000)%Q.

(** The nested [forEach] of [calculateCourseDuration]. *)
Definition course_minutes (course : option Fetched.Course) : Q :=
  match course with
  | Some c =>
      match Fetched.courseContent c with
      | Some content =>
          fold_left
            (fun time ch =>
               match ch with
               | Some chapter =>
                   match Fetched.chapterContent chapter with
                   | Some lectures =>
                       fold_left
                         (fun time lec => time + lectureDuration lec)%Q
                         lectures time
                   | None => time
                   end
               | None => time
               end) content 0%Q
      | None => 0%Q
      end
  | None => 0%Q
  end.

Definition calculateCourseDuration (course : option Fetched.Course) : jsstr :=
  let time := course_minutes course in
  humanizeDuration (time * 60 * 1000)%Q.

End Durations.

(** *** The state of the provider and its fetches *)

(** [allCourses] is [None] when the state holds [undefined]. *)
Record Provider := {
  allCourses : option (list Fetched.Course);
  isEducator : bool;
  enrolledCourses : list Fetched.Course;
  profile : Context
}.


Record EnrolledResponse := {
  e_success : bool;
  e_enrolledCourses : option (list Fetched.Course);
  e_message : option jsstr
}.

Definition msg_enrolled : jsstr := lit "Failed to load enrolled courses".


Definition set_enrolledCourses (v : list Fetched.Course) (p : Provider)
    : Provider :=
  {| allCourses := allCourses p; isEducator := isEducator p;
     enrolledCourses := v; profile := profile p |}.

Definition set_profile (c : Context) (p : Provider) : Provider :=
  {| allCourses := allCourses p; isEducator := isEducator p;
     enrolledCourses := enrolledCourses p; profile := c |}.


Module Part002Provider.

(** [fetchUserData] of this variant on the state of the provider. *)
Definition fetchUserData (user : option ClerkUser)
    (token : Awaited (option jsstr)) (reply : Awaited UserResponse)
    (p : Provider) : Provider * list Effect :=
  let '(c, fx) := Part002.fetchUserData user token reply (profile p) in
  (set_profile c p, fx).

Definition fetchUserEnrolledCourses (user : option ClerkUser)
    (token : Awaited (option jsstr)) (reply : Awaited EnrolledResponse)
    (p : Provider) : Provider * list Effect :=
  match user with
  | None => (p, [])
  | Some _ =>
      let on_error (status : option Z) server_message :=
        if bool_decide (status = Some 401) then (p, [])
        else if bool_decide (status ≠ Some 404) then
          (p, [ToastError (Some (or_else server_message msg_enrolled))])
        else (p, [])
      in
      match token with
      | Rejected status server_message _ => on_error status server_message
      | Resolved tok =>
          if token_missing tok then (p, [])
          else
            match reply with
            | Rejected status server_message _ =>
                on_error status server_message
            | Resolved data =>
                if e_success data then
                  (set_enrolledCourses
                     (match e_enrolledCourses data with
                      | Some courses => reverse courses
                      | None => []
                      end) p, [])
                else if bool_decide (e_message data
                                     ≠ Some (lit "User not found"))
                     then (p, [ToastError (e_message data)])
                     else (p, [])
            end
      end
  end.

(** The branch of the authentication effect that runs without a user, once
    the provider is ready. *)
Definition signed_out (p : Provider) : Provider :=
  {| allCourses := allCourses p; isEducator := false;
     enrolledCourses := [];
     profile := {| userData := None;
                   userDataLoading := userDataLoading (profile p) |} |}.

(** [refreshUserData]: the two fetches, one after the other. *)
Definition refreshUserData (user : option ClerkUser) (isClerkReady : bool)
    (token1 : Awaited (option jsstr)) (reply1 : Awaited UserResponse)
    (token2 : Awaited (option jsstr)) (reply2 : Awaited EnrolledResponse)
    (p : Provider) : Provider * list Effect :=
  match user with
  | Some _ =>
      if isClerkReady then
        let '(p1, fx1) := fetchUserData user token1 reply1 p in
        let '(p2, fx2) := fetchUserEnrolledCourses user token2 reply2 p1 in
        (p2, fx1 ++ fx2)
      else (p, [])
  | None => (p, [])
  end.

End Part002Provider.

(** *** Sample data of the added parts *)

Definition sample_provider : Provider :=
  {| allCourses := Some [course_three_chapters];
     isEducator := true;
     enrolledCourses := [course_three_chapters];
     profile := signed_in |}.

(** The events of a whole session: a thumbnail, a chapter with a lecture,
    a second thumbnail, a submission that succeeds. *)
Definition whole_session : list Event :=
  [EditForm (lit "Linear algebra") (Num 100) (Num 10)
            (Some (lit "<p>Vectors</p>"));
   first_thumbnail;
   ChapterAdd (Some (lit "Intro")) id_a;
   LectureAdd id_a; EditLecture draft_valid; SaveLecture fresh_ids;
   second_thumbnail;
   Submit token_ok reply_ok].

Definition five_stars (n : nat) : list Fetched.Rating := stars (replicate n 5).

(** The object URLs the draft accounts for: its preview, if it has one. *)
Definition preview_set (s : State) : gset jsstr :=
  if truthy (imagePreview s) then {[imagePreview s]} else ∅.

(** The modal of the complete draft with a second chapter of the same
    length. *)
Definition second_chapter : Chapter :=
  {| chapterId := id_b; chapterTitle := lit "Basics";
     chapterContent := [sample_lecture]; collapsed := true;
     chapterOrder := 2 |}.

Definition two_chapter_modal : State :=
  set_chapters [sample_chapter; second_chapter] (modal_with draft_valid).

(** A chapter is added and its lecture modal opened. *)
Definition open_the_modal : list Event :=
  [ChapterAdd (Some (lit "Intro")) id_a; LectureAdd id_a].

(** Two chapters with different ids are added; one is folded, a lecture is
    saved and one chapter is removed. *)
Definition distinct_ids_session : list Event :=
  [ChapterAdd (Some (lit "Intro")) id_a;
   ChapterAdd (Some (lit "Basics")) id_b;
   ChapterToggle id_a;
   LectureAdd id_b; EditLecture draft_valid; SaveLecture fresh_ids;
   ChapterRemove id_a].

(** The minutes of the chapters of a course, added up chapter by chapter. *)
Definition sum_minutes (content : list (option Fetched.Chapter)) : Q :=
  foldr (fun chapter acc => chapter_minutes chapter + acc)%Q 0%Q content.

(** A chapter of a fetched course has no lecture to count. *)
Definition without_lectures (chapter : option Fetched.Chapter) : Prop :=
  match chapter with
  | Some ch =>
      match Fetched.chapterContent ch with
      | Some content => content = []
      | None => True
      end
  | None => True
  end.

(** The request was answered with status 401. *)
Definition answered_401 {A B} (token : Awaited A) (reply : Awaited B)
    : Prop :=
  match token with
  | Rejected status _ _ => status = Some 401
  | Resolved _ =>
      match reply with
      | Rejected status _ _ => status = Some 401
      | Resolved _ => False
      end
  end.

Definition enrolled_two : Awaited EnrolledResponse :=
  Resolved {| e_success := true;
              e_enrolledCourses :=
                Some [course_three_chapters; course_without_content];
              e_message := None |}.

Definition user_found : Awaited UserResponse :=
  Resolved {| r_success := true;
              r_user := Some {| document := lit "{}" |};
              r_message := None |}.

(** A rendering of durations to try the helpers on: the milliseconds as
    digits. *)
Definition show_milliseconds (ms : Q) : jsstr :=
  Double.decimal (Qnum ms / Z.pos (Qden ms)).

Definition one_chapter_course : Fetched.Course :=
  {| Fetched.courseRatings := None;
     Fetched.courseContent :=
       Some [Some {| Fetched.chapterContent :=
                       Some [sample_lecture; sample_lecture] |}] |}.

(** Every lecture of the chapters lasts a whole number of minutes. *)
Definition whole_minutes (content : list (option Fetched.Chapter)) : Prop :=
  Forall (fun chapter =>
            match chapter with
            | Some ch =>
                match Fetched.chapterContent ch with
                | Some lectures =>
                    Forall (fun lec => Qden (lectureDuration lec) = 1%positive)
                           lectures
                | None => True
                end
            | None => True
            end) content.


(** The chapter that is left by [remove_first_of_two]. *)
Definition remaining_chapter : Chapter :=
  {| chapterId := id_b; chapterTitle := lit "Basics"; chapterContent := [];
     collapsed := false; chapterOrder := 2 |}.

(** * Properties of the Course Builder *)

(** ** The model on small inputs *)

Example trim_spaces : trim (lit "  two words ") = lit "two words".
Proof. reflexivity. Qed.

Example trim_blank : trim (lit "   ") = [].
Proof. reflexivity. Qed.

Example splice1_middle : splice1 1 [10; 20; 30] = [10; 30].
Proof. reflexivity. Qed.

Example splice1_from_end : splice1 (-1) [10; 20; 30] = [10; 20].
Proof. reflexivity. Qed.

Example splice1_past_end : splice1 3 [10; 20; 30] = [10; 20; 30].
Proof. reflexivity. Qed.

Example lectures_renumbered :
  (fun ch => lectureOrder <$> chapterContent ch)
    <$> chapters (run three_lectures_remove_first initial).1
  = [[1; 2]].
Proof. vm_compute. reflexivity. Qed.

Example submit_success_resets :
  (step (Submit token_ok reply_ok) complete_draft).1
  = set_form [] (Num 0) (Num 0) (Some []) initial.
Proof. reflexivity. Qed.

(** ** The handlers behind the events *)

Lemma handle_chapter_add answer fresh s :
  handle (ChapterAdd answer fresh) s = (addChapter answer fresh s, []).
Proof. reflexivity. Qed.

Lemma handle_chapter_remove id s :
  handle (ChapterRemove id) s = (removeChapter id s, []).
Proof. reflexivity. Qed.

Lemma handle_chapter_toggle id s :
  handle (ChapterToggle id) s = (toggleChapter id s, []).
Proof. reflexivity. Qed.

Lemma handle_lecture_add id s :
  handle (LectureAdd id) s = (addLecture id s, []).
Proof. reflexivity. Qed.

Lemma handle_lecture_remove id i s :
  handle (LectureRemove id i) s = (removeLecture id i s, []).
Proof. reflexivity. Qed.

(** Case analysis on the event, each case stated with its handler. *)
Ltac by_event ev :=
  destruct ev;
  rewrite ?handle_chapter_add, ?handle_chapter_remove, ?handle_chapter_toggle,
    ?handle_lecture_add, ?handle_lecture_remove;
  cbn [handle fst].

(** ** Lecture numbering *)

Lemma renumber_orders_from (c : list Lecture) (k : nat) :
  lectureOrder <$> imap (fun index lecture =>
                           with_order (Z.of_nat (k + index) + 1) lecture) c
  = seqZ (Z.of_nat k + 1) (Z.of_nat (length c)).
Proof.
  revert k. induction c as [|l c IH]; intros k; [done|].
  cbn [imap fmap list_fmap length].
  rewrite Nat2Z.inj_succ, seqZ_cons by lia. f_equal.
  - cbn. by rewrite Nat.add_0_r.
  - rewrite Z.pred_succ.
    replace (Z.succ (Z.of_nat k + 1)) with (Z.of_nat (S k) + 1) by lia.
    rewrite <- IH. f_equal. apply imap_ext. intros i x _. cbn.
    by rewrite Nat.add_succ_r.
Qed.

Lemma renumber_numbered (c : list Lecture) : numbered (renumber c).
Proof.
  unfold numbered, renumber.
  rewrite length_imap. apply (renumber_orders_from c 0).
Qed.

Lemma append_numbered (c : list Lecture) (l : Lecture) :
  numbered c →
  lectureOrder l = Z.of_nat (length c) + 1 →
  numbered (c ++ [l]).
Proof.
  unfold numbered. intros Hc Hl.
  rewrite fmap_app, length_app, Hc. cbn [length fmap list_fmap].
  rewrite Nat2Z.inj_add.
  rewrite seqZ_app by lia. f_equal.
  change (Z.of_nat 1) with 1. rewrite Hl.
  rewrite (seqZ_cons _ 1), Z.add_comm by lia. done.
Qed.

Lemma Forall_filter_keep {A} (P Q : A → Prop) `{!∀ x, Decision (Q x)} l :
  Forall P l → Forall P (filter Q l).
Proof.
  rewrite !Forall_forall. intros Hall x Hx.
  apply list_elem_of_filter in Hx. apply Hall, Hx.
Qed.

Lemma saveInto_numbered cid d v ids k cs :
  Forall (fun ch => numbered (chapterContent ch)) cs →
  Forall (fun ch => numbered (chapterContent ch)) (saveInto cid d v ids k cs).
Proof.
  intros H. revert k. induction H as [|ch cs Hch Hcs IH]; intros k; cbn.
  - constructor.
  - case_bool_decide; constructor; auto.
    cbn. by apply append_numbered.
Qed.

(** The states the three larger handlers can leave. *)
Lemma handleSaveLecture_state ids s :
  (handleSaveLecture ids s).1 = s
  ∨ ∃ cid d v,
      (handleSaveLecture ids s).1
      = set_modal false None Draft.empty
          (set_chapters (saveInto cid d v ids 0 (chapters s)) s).
Proof.
  unfold handleSaveLecture.
  destruct (currentChapterId s) as [cid|]; [|by left].
  destruct (negb (truthy cid)); [by left|].
  destruct (negb (truthy (trim _))); [by left|].
  destruct (Draft.lectureDuration _) as [|v]; [by left|].
  destruct (Qle_bool v 0); [by left|].
  destruct (negb (truthy (trim _))); [by left|].
  right. by eexists _, _, _.
Qed.

Lemma handleImageChange_state file u s :
  (handleImageChange file u s).1 = s
  ∨ ∃ f, (handleImageChange file u s).1 = set_thumbnail (Some f) u s.
Proof.
  unfold handleImageChange. destruct file as [f|]; [|by left].
  destruct (negb _); [by left|].
  destruct (_ <? _)%N; [by left|]. right. by eexists.
Qed.

(** A submission leaves the draft as it is, or resets it after a
    success. *)
Lemma handleSubmit_state token reply s :
  (handleSubmit token reply s).1 = s ∨ (handleSubmit token reply s).1 = reset s.
Proof.
  unfold handleSubmit.
  destruct (negb _); [by left|].
  destruct (image s); [|by left].
  destruct (quill s); [|by left].
  destruct (negb _); [by left|].
  destruct (_ =? _)%nat; [by left|].
  destruct (_ <? _)%nat; [by left|].
  destruct token; [|by left]. destruct reply as [data|]; [|by left].
  destruct (success data); [by right|by left].
Qed.

Lemma handle_numbered ev s :
  Forall (fun ch => numbered (chapterContent ch)) (chapters s) →
  Forall (fun ch => numbered (chapterContent ch)) (chapters (handle ev s).1).
Proof.
  intros H. by_event ev; try done.
  - (* ChapterAdd *)
    unfold addChapter. destruct answer as [title|]; [|done].
    destruct (truthy title); [|done]. cbn.
    apply Forall_app. split; [done|]. by repeat constructor.
  - (* ChapterRemove *)
    by apply Forall_filter_keep.
  - (* ChapterToggle *)
    apply Forall_fmap. eapply Forall_impl; [exact H|].
    intros ch Hch. cbn. by case_bool_decide.
  - (* LectureRemove *)
    apply Forall_fmap. eapply Forall_impl; [exact H|].
    intros ch Hch. cbn. case_bool_decide; [|done].
    cbn. apply renumber_numbered.
  - (* SaveLecture *)
    destruct (handleSaveLecture_state ids s) as [->|(cid & d & v & ->)];
      [done|by apply saveInto_numbered].
  - (* ImageChange *)
    by destruct (handleImageChange_state file previewUrl s) as [->|(f & ->)].
  - (* Submit *)
    destruct (handleSubmit_state token reply s) as [-> | ->];
      [done|constructor].
Qed.

Lemma step_state ev s : (step ev s).1 = (handle ev s).1.
Proof. unfold step. by destruct (handle ev s). Qed.

Lemma run_cons ev evs s : (run (ev :: evs) s).1 = (run evs (step ev s).1).1.
Proof.
  cbn [run]. destruct (step ev s) as [s1 fx1]. cbn [fst].
  by destruct (run evs s1).
Qed.

(** An invariant of the handlers holds in every state the component
    reaches. *)
Lemma run_invariant (P : State → Prop) :
  (∀ ev s, P s → P (handle ev s).1) →
  ∀ evs s, P s → P (run evs s).1.
Proof.
  intros Hstep evs. induction evs as [|ev evs IH]; intros s Hs; [done|].
  rewrite run_cons. apply IH. rewrite step_state. by apply Hstep.
Qed.

(** C1: after every sequence of operations of the Course Builder (so in
    particular every sequence of saveLecture and removeLecture on one
    chapter), the lectureOrder values of each chapter's content list are
    exactly 1..N in list order. *)
Theorem lecture_orders_contiguous (evs : list Event) :
  Forall (fun ch =>
            lectureOrder <$> chapterContent ch
            = seqZ 1 (Z.of_nat (length (chapterContent ch))))
         (chapters (run evs initial).1).
Proof.
  apply (run_invariant
           (fun s => Forall (fun ch => numbered (chapterContent ch))
                            (chapters s))).
  - apply handle_numbered.
  - constructor.
Qed.

(** ** Chapter numbering *)

Lemma sorted_le_last (l : list Z) (x : Z) :
  StronglySorted Z.lt l → last l = Some x → Forall (fun y => y <= x) l.
Proof.
  induction 1 as [|y l Hl IH Hy]; intros Hlast; [constructor|].
  destruct l as [|z l'].
  - cbn in Hlast. injection Hlast as ->. repeat constructor. lia.
  - rewrite last_cons_cons in Hlast. specialize (IH Hlast).
    constructor; [|done].
    apply Forall_inv in Hy, IH. lia.
Qed.

Lemma orders_snoc_sorted (cs : list Chapter) (c : Chapter) :
  StronglySorted Z.lt (orders cs) →
  chapterOrder c = match last cs with
                   | Some p => chapterOrder p + 1
                   | None => 1
                   end →
  StronglySorted Z.lt (orders (cs ++ [c])).
Proof.
  intros Hs Hc. unfold orders in *. rewrite fmap_app.
  apply StronglySorted_app_2; [|done|repeat constructor].
  intros x1 x2 Hx1 Hx2. apply list_elem_of_singleton in Hx2 as ->.
  destruct (last cs) as [p|] eqn:Hlast.
  - assert (Hle : Forall (fun y => y <= chapterOrder p) (chapterOrder <$> cs)).
    { apply sorted_le_last; [done|]. by rewrite fmap_last, Hlast. }
    rewrite Forall_forall in Hle. specialize (Hle _ Hx1). lia.
  - apply last_None in Hlast. subst cs. by apply elem_of_nil in Hx1.
Qed.

Lemma orders_filter_sorted (P : Chapter → Prop) `{!∀ c, Decision (P c)} cs :
  StronglySorted Z.lt (orders cs) → StronglySorted Z.lt (orders (filter P cs)).
Proof.
  unfold orders. induction cs as [|c cs IH]; [done|].
  rewrite fmap_cons, StronglySorted_cons. intros [Hc Hcs].
  rewrite filter_cons. destruct (decide (P c)); [|by apply IH].
  rewrite fmap_cons, StronglySorted_cons. split; [|by apply IH].
  rewrite Forall_fmap in Hc |- *. by apply Forall_filter_keep.
Qed.

(** A [map] that keeps every chapter's order keeps the list of orders. *)
Lemma orders_fmap_keep (f : Chapter → Chapter) cs :
  (∀ c, chapterOrder (f c) = chapterOrder c) → orders (f <$> cs) = orders cs.
Proof.
  intros Hf. unfold orders. rewrite <- list_fmap_compose.
  apply list_fmap_ext. intros _ c _. apply Hf.
Qed.

Lemma orders_saveInto cid d v ids k cs :
  orders (saveInto cid d v ids k cs) = orders cs.
Proof.
  revert k. induction cs as [|c cs IH]; intros k; [done|].
  cbn. case_bool_decide; cbn; f_equal; apply IH.
Qed.

Lemma orders_toggle id s :
  orders (chapters (toggleChapter id s)) = orders (chapters s).
Proof. cbn. apply orders_fmap_keep. intros c. by case_bool_decide. Qed.

Lemma orders_removeLecture id i s :
  orders (chapters (removeLecture id i s)) = orders (chapters s).
Proof. cbn. apply orders_fmap_keep. intros c. by case_bool_decide. Qed.

Lemma orders_handleSaveLecture ids s :
  orders (chapters (handleSaveLecture ids s).1) = orders (chapters s).
Proof.
  destruct (handleSaveLecture_state ids s) as [->|(cid & d & v & ->)];
    [done|apply orders_saveInto].
Qed.

Lemma handle_sorted ev s :
  StronglySorted Z.lt (orders (chapters s)) →
  StronglySorted Z.lt (orders (chapters (handle ev s).1)).
Proof.
  intros H. by_event ev; try done.
  - unfold addChapter. destruct answer as [title|]; [|done].
    destruct (truthy title); [|done]. cbn.
    by apply orders_snoc_sorted.
  - by apply orders_filter_sorted.
  - by rewrite orders_toggle.
  - by rewrite orders_removeLecture.
  - by rewrite orders_handleSaveLecture.
  - by destruct (handleImageChange_state file previewUrl s) as [->|(f & ->)].
  - destruct (handleSubmit_state token reply s) as [-> | ->];
      [done|constructor].
Qed.

(** C10: in every state the Course Builder reaches, the chapterOrder values
    of the chapter list are strictly increasing in list order. *)
Theorem chapter_orders_increasing (evs : list Event) :
  StronglySorted Z.lt (chapterOrder <$> chapters (run evs initial).1).
Proof.
  apply (run_invariant
           (fun s => StronglySorted Z.lt (orders (chapters s)))).
  - apply handle_sorted.
  - constructor.
Qed.

Lemma contiguous_last cs p :
  contiguous cs → last cs = Some p → chapterOrder p = Z.of_nat (length cs).
Proof.
  unfold contiguous, orders. intros Hc Hlast.
  assert (Hl : last (chapterOrder <$> cs) = Some (chapterOrder p))
    by by rewrite fmap_last, Hlast.
  rewrite Hc in Hl. rewrite last_lookup in Hl.
  apply lookup_seqZ in Hl. rewrite length_seqZ in Hl. lia.
Qed.

Lemma contiguous_snoc cs c :
  contiguous cs →
  chapterOrder c = match last cs with
                   | Some p => chapterOrder p + 1
                   | None => 1
                   end →
  contiguous (cs ++ [c]).
Proof.
  intros Hc Ho. pose proof Hc as Hc'. unfold contiguous, orders in *.
  rewrite fmap_app, length_app, Hc', Nat2Z.inj_add, seqZ_app by lia.
  f_equal. cbn [fmap list_fmap length]. change (Z.of_nat 1) with 1.
  rewrite (seqZ_cons _ 1) by lia. cbn. f_equal. rewrite Ho.
  destruct (last cs) as [p|] eqn:Hlast.
  - rewrite (contiguous_last cs p Hc Hlast). lia.
  - apply last_None in Hlast. by subst cs.
Qed.

Lemma contiguous_orders cs cs' :
  orders cs' = orders cs → contiguous cs → contiguous cs'.
Proof.
  unfold contiguous. intros Ho Hc. rewrite Ho, Hc. do 2 f_equal.
  apply (f_equal length) in Ho. unfold orders in Ho.
  by rewrite !length_fmap in Ho.
Qed.

Lemma handle_contiguous ev s :
  is_removal ev = false →
  contiguous (chapters s) → contiguous (chapters (handle ev s).1).
Proof.
  intros Hev H. by_event ev; try done.
  - unfold addChapter. destruct answer as [title|]; [|done].
    destruct (truthy title); [|done]. cbn.
    by apply contiguous_snoc.
  - eapply contiguous_orders; [apply orders_toggle|done].
  - eapply contiguous_orders; [apply orders_removeLecture|done].
  - eapply contiguous_orders; [apply orders_handleSaveLecture|done].
  - by destruct (handleImageChange_state file previewUrl s) as [->|(f & ->)].
  - by destruct (handleSubmit_state token reply s) as [-> | ->].
Qed.

Lemma run_contiguous evs s :
  forallb (fun ev => negb (is_removal ev)) evs = true →
  contiguous (chapters s) → contiguous (chapters (run evs s).1).
Proof.
  revert s. induction evs as [|ev evs IH]; intros s Hevs Hs; [done|].
  cbn in Hevs. apply andb_prop in Hevs as [Hev Hevs].
  rewrite run_cons. apply IH; [done|]. rewrite step_state.
  apply handle_contiguous; [|done]. by destruct (is_removal ev).
Qed.

(** C3 (as the code has it): as long as no chapter is removed, the
    chapterOrder values are contiguous 1..N; removeChapter deletes the
    chapters with the given id and keeps every other chapter, with its
    chapterOrder, as it was (no renumbering). *)
Theorem chapter_orders_without_removal :
  (∀ evs : list Event,
     forallb (fun ev => negb (is_removal ev)) evs = true →
     chapterOrder <$> chapters (run evs initial).1
     = seqZ 1 (Z.of_nat (length (chapters (run evs initial).1))))
  ∧ (∀ (id : jsstr) (s : State),
       chapters (removeChapter id s) `sublist_of` chapters s
       ∧ ∀ ch, ch ∈ chapters (removeChapter id s)
               ↔ ch ∈ chapters s ∧ chapterId ch ≠ id).
Proof.
  split.
  - intros evs Hevs. by apply (run_contiguous evs initial).
  - intros id s. cbn. split.
    + apply sublist_filter.
    + intros ch. rewrite list_elem_of_filter. tauto.
Qed.

Lemma chapter_orders_without_removal_witness :
  chapterOrder <$> chapters (run add_two_chapters initial).1 = [1; 2].
Proof.
  rewrite (proj1 chapter_orders_without_removal add_two_chapters);
    [|reflexivity].
  reflexivity.
Defined.

(** C3 (as stated) fails: after adding two chapters and removing the first,
    the remaining chapter still has order 2. *)
Lemma chapter_orders_gap_after_removal :
  chapterOrder <$> chapters (run remove_first_of_two initial).1
  ≠ seqZ 1 (Z.of_nat (length (chapters (run remove_first_of_two initial).1))).
Proof. vm_compute. discriminate. Qed.

(** ** Submission *)

Lemma chaptersWithoutLectures_existsb s :
  (0 <? length (chaptersWithoutLectures s))%nat = violated RuleLectures s.
Proof.
  unfold chaptersWithoutLectures. cbn [violated].
  induction (chapters s) as [|ch cs IH]; [done|].
  rewrite filter_cons. cbn [existsb].
  destruct (chapterContent ch) as [|l c] eqn:Hc; cbn.
  - by destruct (decide _).
  - destruct (decide _) as [Hd|_]; [done|]. apply IH.
Qed.

Lemma length_zero_violated s :
  (length (chapters s) =? 0)%nat = violated RuleChapter s.
Proof. cbn. by destruct (chapters s). Qed.

(** [handleSubmit] in terms of its rules, in the order of the code. *)
Lemma handleSubmit_rules token reply s :
  match first_failing code_order s with
  | Some r => handleSubmit token reply s = (s, [ToastError (Some (rule_message r))])
  | None => ∃ fx, (handleSubmit token reply s).2 = GetToken :: fx
  end.
Proof.
  unfold first_failing, code_order, handleSubmit. cbn [List.find].
  rewrite chaptersWithoutLectures_existsb, length_zero_violated.
  cbn [violated]. unfold description_missing.
  destruct (negb (truthy (trim (courseTitle s)))); [done|].
  destruct (image s); [|done].
  destruct (quill s) as [innerHTML|]; [|done].
  destruct (negb (truthy (trim innerHTML))); [done|].
  destruct (chapters s) as [|ch cs] eqn:Hcs; [done|]. rewrite <- Hcs.
  destruct (existsb _ _); [done|].
  destruct token as [tok|]; [|by eexists].
  destruct reply as [data|]; [|by eexists].
  destruct (success data); by eexists.
Qed.

(** C2 (as the code has it): submit() tests, in this order, the course
    title (non-empty after trimming), the thumbnail, the description (the
    editor exists and its HTML is non-empty after trimming), at least one
    chapter, and every chapter having a lecture.  The first rule that fails
    is the one reported; the draft is left as it was and the only effect is
    that notification, so no request is issued.  A draft without chapters
    that passes the three earlier rules is answered with the
    add-at-least-one-chapter message.  When no rule fails, the submission
    goes on to fetch the credential. *)
Theorem submit_validation_order :
  (∀ token reply s r,
     first_failing code_order s = Some r →
     handleSubmit token reply s = (s, [ToastError (Some (rule_message r))]))
  ∧ (∀ token reply s,
       violated RuleTitle s = false →
       violated RuleThumbnail s = false →
       violated RuleDescription s = false →
       chapters s = [] →
       handleSubmit token reply s
       = (s, [ToastError (Some (lit "Please add at least one chapter"))]))
  ∧ (∀ token reply s,
       first_failing code_order s = None →
       ∃ fx, (handleSubmit token reply s).2 = GetToken :: fx).
Proof.
  split; [|split].
  - intros token reply s r Hr.
    pose proof (handleSubmit_rules token reply s) as H. by rewrite Hr in H.
  - intros token reply s Ht Hi Hd Hc.
    pose proof (handleSubmit_rules token reply s) as H.
    unfold first_failing, code_order in H. cbn [List.find] in H.
    rewrite Ht, Hi, Hd in H.
    assert (Hv : violated RuleChapter s = true) by (cbn; by rewrite Hc).
    by rewrite Hv in H.
  - intros token reply s Hr.
    pose proof (handleSubmit_rules token reply s) as H. by rewrite Hr in H.
Qed.

Lemma submit_validation_order_witness :
  handleSubmit token_ok reply_ok draft_without_chapters
  = (draft_without_chapters, [ToastError (Some msg_chapter)])
  ∧ existsb is_network
      (handleSubmit token_ok reply_ok draft_without_chapters).2 = false.
Proof.
  assert (H : handleSubmit token_ok reply_ok draft_without_chapters
              = (draft_without_chapters, [ToastError (Some msg_chapter)])).
  { apply (proj1 (proj2 submit_validation_order)); reflexivity. }
  split; [exact H|]. rewrite H. reflexivity.
Defined.

(** C2 (as stated) fails: with a title but neither thumbnail nor
    description, the order of the specification makes the description the
    first failing rule, and the code reports the thumbnail. *)
Lemma submit_reports_thumbnail_before_description :
  first_failing claimed_order draft_title_only = Some RuleDescription
  ∧ handleSubmit token_ok reply_ok draft_title_only
    = (draft_title_only, [ToastError (Some msg_thumbnail)])
  ∧ msg_thumbnail ≠ rule_message RuleDescription.
Proof. repeat split. vm_compute. discriminate. Qed.

(** C4: when a submission passes validation and then fails (the credential
    or the request throws, or the server answers success=false), one error
    notification is shown (the server's message, or "Failed to add course"
    when a thrown error carries none), and the whole draft state is what it
    was, also after the render that follows. *)
Theorem submit_failure_preserves_draft token reply s :
  first_failing code_order s = None →
  submit_failed token reply = true →
  (handleSubmit token reply s).1 = s
  ∧ (step (Submit token reply) s).1 = s
  ∧ filter (fun e => is_network e = false) (step (Submit token reply) s).2
    = [ToastError (failure_message token reply)].
Proof.
  intros Hr Hf.
  assert (H : (handleSubmit token reply s).1 = s
              ∧ filter (fun e => is_network e = false)
                       (handleSubmit token reply s).2
                = [ToastError (failure_message token reply)]).
  { unfold first_failing, code_order in Hr. cbn [List.find] in Hr.
    unfold handleSubmit.
    rewrite chaptersWithoutLectures_existsb, length_zero_violated.
    destruct (violated RuleTitle s) eqn:Ht; [done|].
    destruct (violated RuleThumbnail s) eqn:Hi; [done|].
    destruct (violated RuleDescription s) eqn:Hd; [done|].
    destruct (violated RuleChapter s) eqn:Hc; [done|].
    destruct (violated RuleLectures s) eqn:Hl; [done|].
    cbn [violated] in Ht, Hi, Hd. unfold description_missing in Hd.
    rewrite Ht.
    destruct (image s); [|done].
    destruct (quill s) as [innerHTML|]; [|done]. rewrite Hd.
    destruct token as [tok|]; [|done].
    destruct reply as [data|]; [|done].
    cbn in Hf. cbn. by destruct (success data). }
  destruct H as [Hs Hfx]. split; [done|].
  unfold step. cbn [handle].
  destruct (handleSubmit token reply s) as [s' fx]. cbn in Hs, Hfx. subst s'.
  split; [done|]. cbn [snd]. unfold previewCleanup.
  rewrite bool_decide_eq_true_2 by done. by rewrite app_nil_r.
Qed.

Lemma submit_failure_preserves_draft_witness :
  (handleSubmit token_ok reply_refused complete_draft).1 = complete_draft
  ∧ (handleSubmit token_ok reply_thrown complete_draft).1 = complete_draft.
Proof.
  split.
  - apply (submit_failure_preserves_draft token_ok reply_refused
             complete_draft); reflexivity.
  - apply (submit_failure_preserves_draft token_ok reply_thrown
             complete_draft); reflexivity.
Defined.

(** ** The lecture modal *)

Lemma not_truthy_nil (x : jsstr) : negb (truthy x) = true ↔ x = [].
Proof. destruct x; cbn; split; congruence. Qed.

Lemma not_truthy_cons (x : jsstr) : negb (truthy x) = false ↔ x ≠ [].
Proof. destruct x; cbn; split; congruence. Qed.

Lemma Qle_bool_positive (v : Q) : Qle_bool v 0 = false ↔ (0 < v)%Q.
Proof.
  split.
  - intros H. apply Qnot_le_lt. intros Hle.
    apply Qle_bool_iff in Hle. congruence.
  - intros H. destruct (Qle_bool v 0) eqn:Hb; [|done].
    apply Qle_bool_iff in Hb. by apply Qle_not_lt in Hb.
Qed.

Lemma saveInto_appended cid d v ids k cs :
  Draft.lectureDuration d = Num v →
  Forall2 (fun chapter chapter' =>
             if bool_decide (chapterId chapter = cid)
             then lecture_appended d chapter chapter'
             else chapter' = chapter)
          cs (saveInto cid d v ids k cs).
Proof.
  intros Hv. revert k. induction cs as [|c cs IH]; intros k; cbn.
  - constructor.
  - destruct (bool_decide (chapterId c = cid)) eqn:Hc.
    + constructor; [|apply IH]. rewrite Hc.
      eexists. cbn. repeat split; try reflexivity. done.
    + constructor; [|apply IH]. by rewrite Hc.
Qed.

(** The modal is open only while it is bound to a chapter id. *)
Lemma open_modal_is_bound (evs : list Event) :
  let s := (run evs initial).1 in
  showPopup s = true → is_Some (currentChapterId s).
Proof.
  apply (run_invariant
           (fun s => showPopup s = true → is_Some (currentChapterId s)));
    [|done].
  intros ev s Hs. by_event ev; try (cbn; by eauto).
  - unfold addChapter. destruct answer as [title|]; [|exact Hs].
    destruct (truthy title); exact Hs.
  - by destruct (handleSaveLecture_state ids s) as [->|(cid & d & v & ->)].
  - by destruct (handleImageChange_state file previewUrl s) as [->|(f & ->)].
  - by destruct (handleSubmit_state token reply s) as [-> | ->].
Qed.

(** C5: with the modal bound to a chapter id, saveLecture rejects a title
    that is empty or only white space, a duration that is not a positive
    number, and a URL that is empty or only white space: it shows the
    notification of the first such field and leaves the state (the open
    modal, its fields, the chapters) as it was.  Otherwise it appends one
    lecture, with sequence = current length + 1, to the chapter with the
    bound id, leaves the other chapters alone, closes the modal and clears
    its fields. *)
Theorem saveLecture_validates (ids : nat → jsstr) (s : State) (cid : jsstr) :
  currentChapterId s = Some cid →
  cid ≠ [] →
  let d := lectureDetails s in
  (trim (Draft.lectureTitle d) = []
   ∨ ¬ positive_duration (Draft.lectureDuration d)
   ∨ trim (Draft.lectureUrl d) = [] →
   ∃ m, handleSaveLecture ids s = (s, [ToastError (Some m)]))
  ∧ (trim (Draft.lectureTitle d) = [] →
     handleSaveLecture ids s
     = (s, [ToastError (Some (lit "Please enter lecture title"))]))
  ∧ (trim (Draft.lectureTitle d) ≠ [] →
     ¬ positive_duration (Draft.lectureDuration d) →
     handleSaveLecture ids s
     = (s, [ToastError (Some (lit "Please enter valid lecture duration"))]))
  ∧ (trim (Draft.lectureTitle d) ≠ [] →
     positive_duration (Draft.lectureDuration d) →
     trim (Draft.lectureUrl d) = [] →
     handleSaveLecture ids s
     = (s, [ToastError (Some (lit "Please enter lecture URL"))]))
  ∧ (trim (Draft.lectureTitle d) ≠ [] →
     positive_duration (Draft.lectureDuration d) →
     trim (Draft.lectureUrl d) ≠ [] →
     ∃ s', handleSaveLecture ids s = (s', [])
           ∧ showPopup s' = false
           ∧ currentChapterId s' = None
           ∧ lectureDetails s' = Draft.empty
           ∧ same_form s s'
           ∧ Forall2 (fun chapter chapter' =>
                        if bool_decide (chapterId chapter = cid)
                        then lecture_appended d chapter chapter'
                        else chapter' = chapter)
                     (chapters s) (chapters s')).
Proof.
  intros Hcid Hne d.
  assert (Htitle : trim (Draft.lectureTitle d) = [] →
            handleSaveLecture ids s = (s, [ToastError (Some msg_lecture_title)])).
  { intros Ht. unfold handleSaveLecture. rewrite Hcid.
    apply not_truthy_cons in Hne. rewrite Hne.
    apply not_truthy_nil in Ht. fold d. by rewrite Ht. }
  assert (Hdur : trim (Draft.lectureTitle d) ≠ [] →
            ¬ positive_duration (Draft.lectureDuration d) →
            handleSaveLecture ids s
            = (s, [ToastError (Some msg_lecture_duration)])).
  { intros Ht Hd. unfold handleSaveLecture. rewrite Hcid.
    apply not_truthy_cons in Hne. rewrite Hne.
    apply not_truthy_cons in Ht. fold d. rewrite Ht.
    destruct (Draft.lectureDuration d) as [|v]; [done|].
    destruct (Qle_bool v 0) eqn:Hb; [done|].
    apply Qle_bool_positive in Hb. by destruct Hd. }
  assert (Hurl : trim (Draft.lectureTitle d) ≠ [] →
            positive_duration (Draft.lectureDuration d) →
            trim (Draft.lectureUrl d) = [] →
            handleSaveLecture ids s = (s, [ToastError (Some msg_lecture_url)])).
  { intros Ht Hd Hu. unfold handleSaveLecture. rewrite Hcid.
    apply not_truthy_cons in Hne. rewrite Hne.
    apply not_truthy_cons in Ht. fold d. rewrite Ht.
    destruct (Draft.lectureDuration d) as [|v]; [done|].
    apply Qle_bool_positive in Hd. rewrite Hd.
    apply not_truthy_nil in Hu. by rewrite Hu. }
  split; [|split; [|split; [|split]]]; try done.
  - intros Hbad.
    destruct (decide (trim (Draft.lectureTitle d) = [])) as [Ht|Ht];
      [eexists; by apply Htitle|].
    destruct (Draft.lectureDuration d) as [|v] eqn:Hv.
    { eexists. apply Hdur; [done|]. cbn. tauto. }
    destruct (Qle_bool v 0) eqn:Hb.
    { eexists. apply Hdur; [done|]. cbn.
      apply Qle_bool_iff in Hb. by apply Qle_not_lt. }
    apply Qle_bool_positive in Hb.
    destruct Hbad as [?|[Hd|Hu]]; [done|by destruct Hd|].
    eexists. by apply Hurl.
  - intros Ht Hd Hu. unfold handleSaveLecture. rewrite Hcid.
    apply not_truthy_cons in Hne. rewrite Hne.
    apply not_truthy_cons in Ht. fold d. rewrite Ht.
    destruct (Draft.lectureDuration d) as [|v] eqn:Hv; [done|].
    apply Qle_bool_positive in Hd. rewrite Hd.
    apply not_truthy_cons in Hu. rewrite Hu.
    eexists. split; [reflexivity|]. cbn.
    repeat split. by apply saveInto_appended.
Qed.

Lemma saveLecture_validates_witness :
  handleSaveLecture fresh_ids (modal_with draft_zero_duration)
  = (modal_with draft_zero_duration,
     [ToastError (Some msg_lecture_duration)])
  ∧ handleSaveLecture fresh_ids (modal_with draft_blank_title)
    = (modal_with draft_blank_title, [ToastError (Some msg_lecture_title)])
  ∧ ∃ s', handleSaveLecture fresh_ids (modal_with draft_valid) = (s', [])
          ∧ showPopup s' = false.
Proof.
  split; [|split].
  - apply (saveLecture_validates fresh_ids (modal_with draft_zero_duration)
             id_a); [reflexivity|discriminate|discriminate|].
    cbn. apply Qlt_irrefl.
  - apply (saveLecture_validates fresh_ids (modal_with draft_blank_title)
             id_a); [reflexivity|discriminate|reflexivity].
  - destruct (saveLecture_validates fresh_ids (modal_with draft_valid) id_a)
      as (_ & _ & _ & _ & H); [reflexivity|discriminate|].
    destruct H as (s' & Hs' & Hp & _); [discriminate|reflexivity|discriminate|].
    by exists s'.
Defined.

(** ** The thumbnail and its preview *)

Lemma truthy_cons (x : jsstr) : truthy x = true ↔ x ≠ [].
Proof. destruct x; cbn; split; congruence. Qed.

Lemma handleImageChange_rejects f u s :
  startsWith (lit "image/") (file_type f) = false
  ∨ (5 * 1024 * 1024 < file_size f)%N →
  ∃ m, handleImageChange (Some f) u s = (s, [ToastError (Some m)]).
Proof.
  intros Hbad. unfold handleImageChange.
  destruct (startsWith _ _) eqn:Ht; cbn; [|by eexists].
  destruct (_ <? _)%N eqn:Hs; [by eexists|].
  apply N.ltb_ge in Hs. destruct Hbad as [?|Hlt]; [done|]. lia.
Qed.

Lemma handleImageChange_accepts f u s :
  startsWith (lit "image/") (file_type f) = true →
  (file_size f ≤ 5 * 1024 * 1024)%N →
  handleImageChange (Some f) u s
  = (set_thumbnail (Some f) u s,
     (if truthy (imagePreview s) then [RevokeObjectURL (imagePreview s)]
      else []) ++ [CreateObjectURL f u]).
Proof.
  intros Ht Hs. unfold handleImageChange. rewrite Ht. cbn [negb].
  apply N.ltb_ge in Hs. by rewrite Hs.
Qed.

(** C6 (as the code has it): setThumbnail rejects a file whose type does not
    start with image/ or whose size exceeds 5 MB with a notification and
    leaves the state, so the stored image and the preview, as it was.  For
    an accepted file the handler stores the file, revokes the previous
    preview URL once (if there was one) and creates the new preview; the
    preview clean-up effect of the render that follows revokes the previous
    URL once more, so that it is revoked twice in all.  Afterwards the
    previous preview is no longer alive and the new one is. *)
Theorem thumbnail_replacement (f : File) (u : jsstr) (s : State) :
  (startsWith (lit "image/") (file_type f) = false
   ∨ (5 * 1024 * 1024 < file_size f)%N →
   ∃ m, step (ImageChange (Some f) u) s = (s, [ToastError (Some m)]))
  ∧ (startsWith (lit "image/") (file_type f) = true →
     (file_size f ≤ 5 * 1024 * 1024)%N →
     let old := imagePreview s in
     let s' := (step (ImageChange (Some f) u) s).1 in
     image s' = Some f
     ∧ imagePreview s' = u
     ∧ (handleImageChange (Some f) u s).2
       = (if truthy old then [RevokeObjectURL old] else [])
         ++ [CreateObjectURL f u]
     ∧ (old ≠ [] → revocations old (handleImageChange (Some f) u s).2 = 1%nat)
     ∧ (old ≠ [] → u ≠ old →
        revocations old (step (ImageChange (Some f) u) s).2 = 2%nat)
     ∧ (old ≠ [] → u ≠ old →
        ∀ live,
          (old ∉ liveURLs (step (ImageChange (Some f) u) s).2 live)
          ∧ (u ∈ liveURLs (step (ImageChange (Some f) u) s).2 live))).
Proof.
  split.
  - intros Hbad. destruct (handleImageChange_rejects f u s Hbad) as [m Hm].
    exists m. unfold step. cbn [handle]. rewrite Hm.
    unfold previewCleanup. by rewrite bool_decide_eq_true_2.
  - intros Ht Hs old s'. subst s'. unfold step. cbn [handle].
    rewrite (handleImageChange_accepts f u s Ht Hs). fold old.
    cbn [fst snd]. split; [done|]. split; [done|]. split; [done|].
    assert (Hfx : old ≠ [] → u ≠ old →
              previewCleanup s (set_thumbnail (Some f) u s)
              = [RevokeObjectURL old]).
    { intros Hold Hu. apply truthy_cons in Hold.
      unfold previewCleanup. cbn [imagePreview set_thumbnail]. fold old.
      rewrite bool_decide_eq_false_2 by done. by rewrite Hold. }
    split; [|split].
    + intros Hold. apply truthy_cons in Hold as ->.
      cbn. by rewrite bool_decide_eq_true_2.
    + intros Hold Hu. rewrite (Hfx Hold Hu).
      apply truthy_cons in Hold as ->.
      cbn. by rewrite bool_decide_eq_true_2.
    + intros Hold Hu live. rewrite (Hfx Hold Hu).
      apply truthy_cons in Hold as ->.
      cbn. rewrite !elem_of_difference, !elem_of_union, !elem_of_singleton.
      tauto.
Qed.

Lemma thumbnail_replacement_witness :
  (∃ m, step (ImageChange (Some jpeg_6mb) blob_2) complete_draft
        = (complete_draft, [ToastError (Some m)]))
  ∧ (∃ m, step (ImageChange (Some pdf_1kb) blob_2) complete_draft
          = (complete_draft, [ToastError (Some m)]))
  ∧ revocations blob_1
      (step (ImageChange (Some png_2mb) blob_2) complete_draft).2 = 2%nat.
Proof.
  split; [|split].
  - apply (thumbnail_replacement jpeg_6mb blob_2 complete_draft).
    right. reflexivity.
  - apply (thumbnail_replacement pdf_1kb blob_2 complete_draft).
    left. reflexivity.
  - apply (thumbnail_replacement png_2mb blob_2 complete_draft);
      [reflexivity|discriminate|discriminate|discriminate].
Defined.

(** C6 (as stated) fails: when a second valid thumbnail replaces the first,
    the preview URL of the first is revoked by the handler and again by the
    clean-up effect, twice and not exactly once. *)
Lemma previous_preview_revoked_twice :
  let s1 := (run [first_thumbnail] initial).1 in
  imagePreview s1 = blob_1
  ∧ revocations blob_1 (step second_thumbnail s1).2 = 2%nat
  ∧ revocations blob_1 (step second_thumbnail s1).2 ≠ 1%nat.
Proof. vm_compute. repeat split. discriminate. Qed.

(** * Properties of the shared context *)

(** ** The average rating *)

(** 29/20 is the double just below 1.45 and 27/20 the double just above
    1.35: both print as 1.4. *)
Example rating_29_20 :
  calculateRating (Some (course_rated (replicate 9 2 ++ replicate 11 1)))
  = Str (lit "1.4").
Proof. vm_compute. reflexivity. Qed.

Example rating_27_20 :
  calculateRating (Some (course_rated (replicate 7 2 ++ replicate 13 1)))
  = Str (lit "1.4").
Proof. vm_compute. reflexivity. Qed.

Example rating_9_2 : calculateRating (Some (course_rated [4; 5])) = Str (lit "4.5").
Proof. vm_compute. reflexivity. Qed.

Lemma round_half_even_spec (n d : Z) :
  0 < d →
  - d <= 2 * (Double.round_half_even n d * d - n) <= d.
Proof.
  intros Hd. unfold Double.round_half_even.
  pose proof (Z.div_mod n d ltac:(lia)) as Hdiv.
  pose proof (Z.mod_pos_bound n d Hd) as Hmod.
  destruct (2 * (n mod d) <? d) eqn:H1; [apply Z.ltb_lt in H1; nia|].
  apply Z.ltb_ge in H1.
  destruct (d <? 2 * (n mod d)) eqn:H2; [apply Z.ltb_lt in H2; nia|].
  apply Z.ltb_ge in H2.
  destruct (Z.even (n / d)); nia.
Qed.

Lemma floor_log2_lower (n d : Z) :
  0 < n → 0 < d →
  (0 <= Double.floor_log2 n d → d * 2 ^ Double.floor_log2 n d <= n)
  ∧ (Double.floor_log2 n d < 0 → d <= n * 2 ^ (- Double.floor_log2 n d)).
Proof.
  intros Hn Hd. unfold Double.floor_log2.
  set (k := Z.log2 n - Z.log2 d).
  pose proof (Z.log2_spec n Hn) as [Hn1 Hn2].
  pose proof (Z.log2_spec d Hd) as [Hd1 Hd2].
  pose proof (Z.log2_nonneg n) as Hln.
  pose proof (Z.log2_nonneg d) as Hld.
  assert (Hbelow :
            (0 <= k - 1 → d * 2 ^ (k - 1) <= n)
            ∧ (k - 1 < 0 → d <= n * 2 ^ (- (k - 1)))).
  { split; intros Hk1.
    - (* d * 2^(k-1) < 2^(log2 d + 1) * 2^(k-1) = 2^(log2 n) <= n *)
      assert (He : 2 ^ Z.succ (Z.log2 d) * 2 ^ (k - 1) = 2 ^ Z.log2 n).
      { rewrite <- Z.pow_add_r by lia. f_equal. lia. }
      assert (0 < 2 ^ (k - 1)) by (apply Z.pow_pos_nonneg; lia).
      nia.
    - replace (- (k - 1)) with (Z.succ (Z.log2 d) - Z.log2 n) by lia.
      assert (He : 2 ^ Z.log2 n * 2 ^ (Z.succ (Z.log2 d) - Z.log2 n)
                   = 2 ^ Z.succ (Z.log2 d)).
      { rewrite <- Z.pow_add_r by lia. f_equal. lia. }
      assert (0 < 2 ^ (Z.succ (Z.log2 d) - Z.log2 n))
        by (apply Z.pow_pos_nonneg; lia).
      nia. }
  destruct (0 <=? k) eqn:Hk.
  - apply Z.leb_le in Hk.
    destruct (d * 2 ^ k <=? n) eqn:Ht; [|done].
    apply Z.leb_le in Ht. split; [done|lia].
  - apply Z.leb_gt in Hk.
    destruct (d <=? n * 2 ^ (- k)) eqn:Ht; [|done].
    apply Z.leb_le in Ht. split; [lia|done].
Qed.

Lemma floor_log2_upper (n d : Z) :
  0 < n → 0 < d → n < 2 ^ 53 * d → Double.floor_log2 n d <= 52.
Proof.
  intros Hn Hd Hlt.
  destruct (Z_le_gt_dec (Double.floor_log2 n d) 52) as [|Hgt]; [done|].
  pose proof (floor_log2_lower n d Hn Hd) as [Hlow _].
  specialize (Hlow ltac:(lia)).
  assert (2 ^ 53 <= 2 ^ Double.floor_log2 n d)
    by (apply Z.pow_le_mono_r; lia).
  nia.
Qed.

(** The quotient of the code: its error is at most half a unit in the last
    place of a 53-bit significand. *)
Lemma div_spec (s c : Z) :
  0 < s → 0 < c → s < 2 ^ 53 * c →
  let x := Double.div s c in
  let T := 2 ^ (- Double.exponent x) in
  Double.exponent x <= 0
  ∧ 2 ^ 52 * c <= s * T
  ∧ - c <= 2 * (Double.mantissa x * c - s * T) <= c.
Proof.
  intros Hs Hc Hlt. unfold Double.div.
  rewrite (proj2 (Z.eqb_neq s 0)) by lia.
  pose proof (floor_log2_upper s c Hs Hc Hlt) as Hup.
  pose proof (floor_log2_lower s c Hs Hc) as [Hlo1 Hlo2].
  set (f := Double.floor_log2 s c) in *.
  assert (Hscaled : 2 ^ 52 * c <= s * 2 ^ (52 - f)).
  { destruct (Z_le_gt_dec 0 f) as [Hf|Hf].
    - specialize (Hlo1 Hf).
      assert (He : 2 ^ f * 2 ^ (52 - f) = 2 ^ 52)
        by (rewrite <- Z.pow_add_r by lia; f_equal; lia).
      assert (0 < 2 ^ (52 - f)) by (apply Z.pow_pos_nonneg; lia).
      nia.
    - specialize (Hlo2 ltac:(lia)).
      assert (He : 2 ^ (- f) * 2 ^ 52 = 2 ^ (52 - f))
        by (rewrite <- Z.pow_add_r by lia; f_equal; lia).
      nia. }
  destruct (0 <=? f - 52) eqn:He; cbn [Double.exponent Double.mantissa].
  - apply Z.leb_le in He. assert (Hf : f = 52) by lia.
    rewrite Hf in *. change (52 - 52) with 0 in *. change (- 0) with 0.
    rewrite Z.pow_0_r, !Z.mul_1_r in *.
    split; [lia|]. split; [done|].
    by apply round_half_even_spec.
  - apply Z.leb_gt in He.
    replace (- (f - 52)) with (52 - f) by lia.
    split; [lia|]. split; [done|].
    by apply round_half_even_spec.
Qed.

Lemma nearest_tenth_spec (x : Double.t) :
  Double.exponent x <= 0 →
  let T := 2 ^ (- Double.exponent x) in
  let n := Double.nearest_tenth x in
  2 * T * n <= 20 * Double.mantissa x + T < 2 * T * (n + 1).
Proof.
  intros He T n. subst n. unfold Double.nearest_tenth.
  assert (HT : 0 < T) by (apply Z.pow_pos_nonneg; lia).
  destruct (0 <=? Double.exponent x) eqn:Hb.
  - apply Z.leb_le in Hb. assert (H0 : Double.exponent x = 0) by lia.
    subst T. rewrite H0 in *. change (- 0) with 0. rewrite Z.pow_0_r. lia.
  - fold T.
    pose proof (Z.div_mod (20 * Double.mantissa x + T) (2 * T) ltac:(lia)).
    pose proof (Z.mod_pos_bound (20 * Double.mantissa x + T) (2 * T)
                  ltac:(lia)).
    nia.
Qed.

(** Rounding the double quotient to tenths gives a tenth nearest to the
    exact quotient. *)
Lemma nearest_tenth_div (s c : Z) :
  0 < s → 0 < c → 20 * s < 2 ^ 53 →
  let n := Double.nearest_tenth (Double.div s c) in
  - c <= 2 * (n * c - 10 * s) <= c.
Proof.
  intros Hs Hc Hb n.
  destruct (div_spec s c Hs Hc ltac:(nia)) as (He & Hlow & Hm).
  pose proof (nearest_tenth_spec (Double.div s c) He) as Hn.
  fold n in Hn. cbv zeta in Hn.
  set (T := 2 ^ (- Double.exponent (Double.div s c))) in *.
  set (m := Double.mantissa (Double.div s c)) in *.
  assert (HT : 0 < T) by (apply Z.pow_pos_nonneg; lia).
  change (2 ^ 53) with 9007199254740992 in Hb.
  change (2 ^ 52) with 4503599627370496 in Hlow.
  (* T * (2nc - 20s - c) <= 10c and 10c * 2^52 <= 10 s T < 2^52 T *)
  assert (H1 : T * (2 * (n * c - 10 * s) - c) <= 10 * c) by nia.
  assert (H2 : - (10 * c) < T * (2 * (n * c - 10 * s) + c)) by nia.
  assert (H3 : 10 * c * 4503599627370496 < 4503599627370496 * T) by nia.
  assert (H4 : 10 * c < T) by lia.
  split.
  - destruct (Z_le_gt_dec (- c) (2 * (n * c - 10 * s))) as [|Hgt]; [done|].
    assert (2 * (n * c - 10 * s) + c <= -1) by lia. nia.
  - destruct (Z_le_gt_dec (2 * (n * c - 10 * s)) c) as [|Hgt]; [done|].
    assert (1 <= 2 * (n * c - 10 * s) - c) by lia. nia.
Qed.

Lemma fold_left_add {A} (f : A → Z) (l : list A) (a : Z) :
  fold_left (fun sum x => sum + f x) l a = a + foldr (fun x acc => f x + acc) 0 l.
Proof.
  revert a. induction l as [|x l IH]; intros a; cbn; [lia|].
  rewrite IH. lia.
Qed.

Lemma sum_ratings_nonneg (ratings : list Fetched.Rating) :
  Forall (fun r => 0 <= Fetched.rating r) ratings → 0 <= sum_ratings ratings.
Proof. induction 1; cbn; [done|]. fold (sum_ratings l). lia. Qed.

(** C7: for a course with at least one rating (whole, non-negative stars
    whose sum stays in the exact range of a double), calculateRating
    returns sum/count rounded to one decimal: the text of n tenths, where
    n/10 is a multiple of 0.1 nearest to sum/count.  For a course without
    ratings (no course, no rating array, or an empty one) it returns 0, and
    for the ratings [3,4,5] it returns 4.0. *)
Theorem calculateRating_rounds :
  (∀ (c : Fetched.Course) (ratings : list Fetched.Rating),
     Fetched.courseRatings c = Some ratings →
     ratings ≠ [] →
     Forall (fun r => 0 <= Fetched.rating r) ratings →
     20 * sum_ratings ratings < 2 ^ 53 →
     ∃ n : Z,
       calculateRating (Some c) = Str (Double.tenths n)
       ∧ Z.abs (n * Z.of_nat (length ratings) - 10 * sum_ratings ratings) * 2
         <= Z.of_nat (length ratings))
  ∧ calculateRating None = Number 0
  ∧ (∀ c : Fetched.Course,
       Fetched.courseRatings c = None ∨ Fetched.courseRatings c = Some [] →
       calculateRating (Some c) = Number 0)
  ∧ calculateRating (Some (course_rated [3; 4; 5])) = Str (lit "4.0").
Proof.
  split; [|split; [done|split]].
  - intros c ratings Hc Hne Hpos Hb. unfold calculateRating. rewrite Hc.
    destruct ratings as [|r rs]; [done|].
    change (length (r :: rs) =? 0)%nat with false. cbv iota.
    rewrite fold_left_add, Z.add_0_l. fold (sum_ratings (r :: rs)).
    set (s := sum_ratings (r :: rs)) in *.
    set (len := Z.of_nat (length (r :: rs))).
    assert (Hlen : 0 < len) by (subst len; cbn [length]; lia).
    exists (Double.nearest_tenth (Double.div s len)). split; [done|].
    pose proof (sum_ratings_nonneg _ Hpos) as Hs. fold s in Hs.
    destruct (Z.eq_dec s 0) as [Hz|Hz].
    + rewrite Hz. cbn. lia.
    + pose proof (nearest_tenth_div s len ltac:(lia) Hlen Hb) as Hn.
      cbv zeta in Hn. lia.
  - intros c [Hc|Hc]; unfold calculateRating; by rewrite Hc.
  - vm_compute. reflexivity.
Qed.

Lemma calculateRating_rounds_witness :
  ∃ n : Z,
    calculateRating (Some (course_rated [4; 5; 5])) = Str (Double.tenths n)
    ∧ Z.abs (n * 3 - 10 * 14) * 2 <= 3.
Proof.
  apply (proj1 calculateRating_rounds (course_rated [4; 5; 5])
           (stars [4; 5; 5])).
  - reflexivity.
  - discriminate.
  - repeat constructor; cbn; lia.
  - reflexivity.
Defined.

(** ** The number of lectures *)

(** With a [courseContent] array, the helper adds up the lengths of the
    lecture lists, a chapter without one counting for nothing. *)
Lemma calculateNoOfLectures_sum (c : Fetched.Course) content :
  Fetched.courseContent c = Some content →
  calculateNoOfLectures (Some c) = Number (sum_lectures content).
Proof.
  intros Hc. unfold calculateNoOfLectures. rewrite Hc.
  by rewrite fold_left_add, Z.add_0_l.
Qed.

Lemma calculateNoOfLectures_absent (c : Fetched.Course) :
  Fetched.courseContent c = None →
  calculateNoOfLectures (Some c) = Undefined.
Proof. intros Hc. unfold calculateNoOfLectures. by rewrite Hc. Qed.

(** C8: for a course document without courseContent, and for no course at
    all, calculateNoOfLectures returns undefined and not zero; with the
    array present it returns the sum of the lecture-list lengths, chapters
    without chapterContent counting zero. *)
Theorem calculateNoOfLectures_without_content :
  calculateNoOfLectures (Some course_without_content) = Undefined
  ∧ calculateNoOfLectures None = Undefined
  ∧ calculateNoOfLectures (Some course_without_content) ≠ Number 0
  ∧ calculateNoOfLectures (Some course_three_chapters) = Number 2.
Proof. repeat split. discriminate. Qed.

(** ** fetchUserData *)

(** In the variant with the not-found branch, a 404 answer stores the
    profile made from the session (id, first email, names, no enrolment),
    and a 401 answer clears the profile and asks to log in again. *)
Lemma fetchUserData_part001 (u : ClerkUser) (tok : jsstr)
    (server_message message : option jsstr) (c : Context) :
  tok ≠ [] →
  Part001.fetchUserData (Some u) (Resolved (Some tok))
    (Rejected (Some 404) server_message message) c
  = ({| userData :=
          Some (LocalProfile (id u) (first_email u) (firstName u)
                             (lastName u) []);
        userDataLoading := false |}, [])
  ∧ Part001.fetchUserData (Some u) (Resolved (Some tok))
      (Rejected (Some 401) server_message message) c
    = ({| userData := None; userDataLoading := false |},
       [ToastError (Some (lit "Authentication failed. Please login again."))]).
Proof.
  intros Htok. unfold Part001.fetchUserData. cbn [token_missing].
  apply not_truthy_cons in Htok. rewrite Htok. by split.
Qed.

(** C9: the variant of fetchUserData without a not-found branch answers a
    404 with the error notification and keeps the profile it had, instead of
    storing a profile made from the session; its 401 branch clears the
    profile without any notification. *)
Theorem fetchUserData_part002_not_found :
  Part002.fetchUserData (Some session_user) token_ok not_found signed_in
  = ({| userData := userData signed_in; userDataLoading := false |},
     [ToastError (Some (lit "User Not Found"))])
  ∧ Part002.fetchUserData (Some session_user) token_ok unauthorized signed_in
    = ({| userData := None; userDataLoading := false |}, [])
  ∧ Part001.fetchUserData (Some session_user) token_ok not_found signed_in
    = ({| userData := Some (local_profile session_user);
          userDataLoading := false |}, []).
Proof. repeat split. Qed.

(** * Further properties of the Course Builder *)

(** ** A submission that succeeds *)

(** When every rule passes, the credential resolves and the server answers
    success, one request is sent: it carries the trimmed title, the editor's
    HTML, the numeric price and discount, the chapters and the image.  The
    server's message is shown, the previous preview is revoked, and the
    draft is empty again; the lecture modal is not touched. *)
Theorem submit_success_resets_draft (tok : option jsstr) (data : PostResponse)
    (s : State) :
  first_failing code_order s = None →
  success data = true →
  ∃ img html,
    image s = Some img ∧ quill s = Some html
    ∧ (handleSubmit (Resolved tok) (Resolved data) s).2
      = [GetToken;
         Post {| cd_courseTitle := trim (courseTitle s);
                 cd_courseDescription := html;
                 cd_coursePrice := toNumber (coursePrice s);
                 cd_discount := toNumber (discount s);
                 cd_courseContent := chapters s |} img tok;
         ToastSuccess (message data)]
        ++ (if truthy (imagePreview s)
            then [RevokeObjectURL (imagePreview s)] else [])
    ∧ let s' := (handleSubmit (Resolved tok) (Resolved data) s).1 in
      courseTitle s' = [] ∧ coursePrice s' = Num 0 ∧ discount s' = Num 0
      ∧ image s' = None ∧ imagePreview s' = [] ∧ chapters s' = []
      ∧ quill s' = Some []
      ∧ showPopup s' = showPopup s
      ∧ currentChapterId s' = currentChapterId s
      ∧ lectureDetails s' = lectureDetails s.
Proof.
  intros Hr Hok.
  unfold first_failing, code_order in Hr. cbn [List.find] in Hr.
  unfold handleSubmit.
  rewrite chaptersWithoutLectures_existsb, length_zero_violated.
  destruct (violated RuleTitle s) eqn:Ht; [done|].
  destruct (violated RuleThumbnail s) eqn:Hi; [done|].
  destruct (violated RuleDescription s) eqn:Hd; [done|].
  destruct (violated RuleChapter s) eqn:Hc; [done|].
  destruct (violated RuleLectures s) eqn:Hl; [done|].
  cbn [violated] in Ht, Hi, Hd. unfold description_missing in Hd.
  rewrite Ht.
  destruct (image s) as [img|]; [|done].
  destruct (quill s) as [innerHTML|] eqn:Hq; [|done]. rewrite Hd, Hok.
  exists img, innerHTML. cbn. by rewrite Hq.
Qed.

Lemma submit_success_resets_draft_witness :
  ∃ img html,
    image complete_draft = Some img ∧ quill complete_draft = Some html
    ∧ posts (handleSubmit token_ok reply_ok complete_draft).2 = 1%nat.
Proof.
  destruct (submit_success_resets_draft (Some (lit "eyJhbGciOi"))
              {| success := true; message := Some (lit "Course Added") |}
              complete_draft) as (img & html & Hi & Hq & Hfx & _);
    [reflexivity|reflexivity|].
  exists img, html. split; [exact Hi|]. split; [exact Hq|].
  unfold token_ok, reply_ok. rewrite Hfx. reflexivity.
Defined.

(** ** Chapters *)

Lemma toggle_map_twice (id : jsstr) (cs : list Chapter) :
  let f := fun chapter =>
             if bool_decide (chapterId chapter = id)
             then with_collapsed (negb (collapsed chapter)) chapter
             else chapter in
  f <$> (f <$> cs) = cs.
Proof.
  intros f. induction cs as [|c cs IH]; [done|].
  rewrite !fmap_cons, IH. f_equal. subst f. cbn beta.
  destruct c as [ci ct co cl cn]. cbn [chapterId collapsed].
  destruct (bool_decide (ci = id)) eqn:E.
  - unfold with_collapsed. cbn [chapterId collapsed chapterTitle
      chapterContent chapterOrder]. rewrite E. by rewrite negb_involutive.
  - cbn [chapterId]. by rewrite E.
Qed.

(** Folding a chapter and unfolding it again gives the draft back, and
    folding never changes anything but the [collapsed] flag of the chapters
    with that id. *)
Theorem toggleChapter_twice (id : jsstr) (s : State) :
  toggleChapter id (toggleChapter id s) = s
  ∧ Forall2 (fun c c' =>
               chapterId c' = chapterId c
               ∧ chapterTitle c' = chapterTitle c
               ∧ chapterContent c' = chapterContent c
               ∧ chapterOrder c' = chapterOrder c
               ∧ collapsed c'
                 = (if bool_decide (chapterId c = id)
                    then negb (collapsed c) else collapsed c))
            (chapters s) (chapters (toggleChapter id s)).
Proof.
  split.
  - destruct s as [t p d i ip cs sp cc ld q].
    unfold toggleChapter, set_chapters. cbn. f_equal.
    apply toggle_map_twice.
  - cbn. apply Forall2_fmap_r, Forall_Forall2_diag, Forall_forall.
    intros c _. unfold compose.
    by destruct (bool_decide (chapterId c = id)).
Qed.

(** After removeChapter no chapter has the removed id; removing again, or
    removing an id that no chapter has, changes nothing; and removals can be
    done in either order. *)
Theorem removeChapter_removes (id id' : jsstr) (s : State) :
  (id ∉ chapter_ids (removeChapter id s))
  ∧ removeChapter id (removeChapter id s) = removeChapter id s
  ∧ (id ∉ chapter_ids s → chapters (removeChapter id s) = chapters s)
  ∧ removeChapter id (removeChapter id' s)
    = removeChapter id' (removeChapter id s).
Proof.
  unfold chapter_ids, removeChapter, set_chapters. cbn.
  split; [|split; [|split]].
  - rewrite list_elem_of_fmap. intros (c & Hid & Hc).
    apply list_elem_of_filter in Hc as [Hne _]. by rewrite Hid in Hne.
  - f_equal. rewrite list_filter_filter. apply list_filter_iff. tauto.
  - intros Hid. induction (chapters s) as [|c cs IH]; [done|].
    rewrite fmap_cons, not_elem_of_cons in Hid. destruct Hid as [Hc Hcs].
    rewrite filter_cons_True by done. f_equal. by apply IH.
  - f_equal. rewrite !list_filter_filter. apply list_filter_iff. tauto.
Qed.

Lemma removeChapter_removes_witness :
  chapters (removeChapter id_b complete_draft) = chapters complete_draft.
Proof.
  apply (removeChapter_removes id_b id_a complete_draft).
  vm_compute. intros H. apply list_elem_of_In in H. cbn in H.
  destruct H as [H|[]]. discriminate.
Defined.

(** addChapter leaves the chapter list alone exactly when the prompt was
    cancelled or answered with the empty string; any other answer, white
    space included, appends one empty, unfolded chapter with the given title
    and id after the chapters there were. *)
Theorem addChapter_appends (answer : option jsstr) (fresh : jsstr)
    (s : State) :
  (chapters (addChapter answer fresh s) = chapters s
   ↔ answer = None ∨ answer = Some [])
  ∧ (∀ title, answer = Some title → title ≠ [] →
       ∃ c, chapters (addChapter answer fresh s) = chapters s ++ [c]
            ∧ chapterId c = fresh ∧ chapterTitle c = title
            ∧ chapterContent c = [] ∧ collapsed c = false).
Proof.
  split.
  - unfold addChapter. destruct answer as [[|a title]|]; cbn.
    + split; [by right|done].
    + split; [|by intros [?|?]].
      intros H. apply (f_equal length) in H.
      rewrite length_app in H. cbn in H. lia.
    + split; [by left|done].
  - intros title -> Hne. unfold addChapter.
    apply truthy_cons in Hne as ->. by eexists.
Qed.

Lemma addChapter_appends_witness :
  ∃ c, chapters (addChapter (Some (lit "  ")) id_b complete_draft)
       = chapters complete_draft ++ [c]
       ∧ chapterId c = id_b ∧ chapterTitle c = lit "  "
       ∧ chapterContent c = [] ∧ collapsed c = false.
Proof.
  apply (addChapter_appends (Some (lit "  ")) id_b complete_draft);
    [reflexivity|discriminate].
Defined.

Lemma sorted_from (l : list Z) (k : Z) (i : nat) (x : Z) :
  StronglySorted Z.lt l → Forall (fun y => k <= y) l →
  l !! i = Some x → k + Z.of_nat i <= x.
Proof.
  intros Hs. revert k i. induction Hs as [|y l Hl IH Hy]; intros k i Hk Hi.
  - done.
  - destruct i as [|i]; cbn in Hi.
    + injection Hi as ->. apply Forall_inv in Hk. lia.
    + apply Forall_inv in Hk as Hky.
      specialize (IH (k + 1) i). rewrite Nat2Z.inj_succ.
      assert (k + 1 + Z.of_nat i <= x); [|lia].
      apply IH; [|done]. eapply Forall_impl; [exact Hy|]. cbn. lia.
Qed.

Lemma handle_orders_positive ev s :
  Forall (fun y => 1 <= y) (orders (chapters s)) →
  StronglySorted Z.lt (orders (chapters s)) →
  Forall (fun y => 1 <= y) (orders (chapters (handle ev s).1)).
Proof.
  intros H Hs. by_event ev; try done.
  - unfold addChapter. destruct answer as [title|]; [|done].
    destruct (truthy title); [|done]. cbn. unfold orders in *.
    rewrite fmap_app. apply Forall_app. split; [done|].
    repeat constructor. cbn.
    destruct (last (chapters s)) as [p|] eqn:Hlast; [|done].
    apply last_Some_elem_of in Hlast.
    rewrite Forall_fmap, Forall_forall in H. specialize (H _ Hlast).
    cbn in H. lia.
  - unfold orders in *. rewrite Forall_fmap in H |- *.
    by apply Forall_filter_keep.
  - by rewrite orders_toggle.
  - by rewrite orders_removeLecture.
  - by rewrite orders_handleSaveLecture.
  - by destruct (handleImageChange_state file previewUrl s) as [->|(f & ->)].
  - destruct (handleSubmit_state token reply s) as [-> | ->];
      [done|constructor].
Qed.

(** In every state the builder reaches, the chapter shown at position i+1
    has a chapterOrder of at least i+1, and no two chapters have the same
    chapterOrder. *)
Theorem chapter_order_at_least_position (evs : list Event) :
  (∀ (i : nat) (c : Chapter),
     chapters (run evs initial).1 !! i = Some c →
     Z.of_nat i + 1 <= chapterOrder c)
  ∧ NoDup (chapterOrder <$> chapters (run evs initial).1).
Proof.
  assert (H : Forall (fun y => 1 <= y) (orders (chapters (run evs initial).1))
              ∧ StronglySorted Z.lt (orders (chapters (run evs initial).1))).
  { apply (run_invariant
             (fun s => Forall (fun y => 1 <= y) (orders (chapters s))
                       ∧ StronglySorted Z.lt (orders (chapters s)))).
    - intros ev s [H1 H2]. split;
        [by apply handle_orders_positive|by apply handle_sorted].
    - split; constructor. }
  destruct H as [Hpos Hsorted]. split.
  - intros i c Hi.
    assert (Ho : orders (chapters (run evs initial).1) !! i
                 = Some (chapterOrder c))
      by (unfold orders; by rewrite list_lookup_fmap, Hi).
    pose proof (sorted_from _ 1 i _ Hsorted Hpos Ho). lia.
  - fold (orders (chapters (run evs initial).1)).
    induction Hsorted as [|y l Hl IH Hy]; constructor.
    + intros Hin. rewrite Forall_forall in Hy. specialize (Hy _ Hin). lia.
    + apply IH. by apply Forall_inv_tail in Hpos.
Qed.

Lemma chapter_order_at_least_position_witness :
  Z.of_nat 0 + 1 <= chapterOrder remaining_chapter.
Proof.
  apply (proj1 (chapter_order_at_least_position remove_first_of_two) 0%nat
           remaining_chapter).
  reflexivity.
Defined.

(** ** Lectures *)

Lemma lecture_data_renumber (c : list Lecture) :
  lecture_data <$> renumber c = lecture_data <$> c.
Proof.
  unfold renumber. rewrite fmap_imap. apply list_eq. intros i.
  rewrite list_lookup_imap, list_lookup_fmap. by destruct (c !! i).
Qed.

Lemma delete_past_end {A} (i : nat) (l : list A) :
  (length l ≤ i)%nat → delete i l = l.
Proof.
  revert i. induction l as [|x l IH]; intros [|i] Hi; cbn in *;
    [done|done|lia|]. f_equal. apply IH. lia.
Qed.

Lemma splice1_in_range {A} (i : nat) (l : list A) :
  splice1 (Z.of_nat i) l = delete i l.
Proof.
  unfold splice1.
  destruct (Z.of_nat i <? 0) eqn:Hneg; [apply Z.ltb_lt in Hneg; lia|].
  destruct (decide (i < length l)%nat) as [Hlt|Hge].
  - by rewrite Z.min_l, Nat2Z.id by lia.
  - rewrite Z.min_r, Nat2Z.id by lia.
    rewrite !delete_past_end; [done|lia..].
Qed.

(** removeLecture with the position of a lecture of a chapter removes that
    lecture and no other: the chapter has one lecture less, and the
    remaining ones keep their order in the list and all their data but the
    sequence number.  A position past the end removes nothing.  Chapters
    with another id are left alone. *)
Theorem removeLecture_removes_one (id : jsstr) (s : State) (k : nat)
    (c : Chapter) :
  chapters s !! k = Some c →
  (chapterId c ≠ id →
   ∀ j : Z, chapters (removeLecture id j s) !! k = Some c)
  ∧ (chapterId c = id →
     ∀ i : nat,
     ∃ c', chapters (removeLecture id (Z.of_nat i) s) !! k = Some c'
           ∧ lecture_data <$> chapterContent c'
             = delete i (lecture_data <$> chapterContent c)
           ∧ ((i < length (chapterContent c))%nat →
              S (length (chapterContent c'))
              = length (chapterContent c))
           ∧ ((length (chapterContent c) ≤ i)%nat →
              lecture_data <$> chapterContent c'
              = lecture_data <$> chapterContent c)
           ∧ chapterId c' = chapterId c
           ∧ chapterTitle c' = chapterTitle c
           ∧ collapsed c' = collapsed c
           ∧ chapterOrder c' = chapterOrder c).
Proof.
  intros Hk. split.
  - intros Hne j. cbn. rewrite list_lookup_fmap, Hk. cbn.
    by rewrite bool_decide_eq_false_2.
  - intros Hid i. eexists. cbn. rewrite list_lookup_fmap, Hk. cbn.
    rewrite bool_decide_eq_true_2 by done.
    split; [reflexivity|]. cbn.
    rewrite lecture_data_renumber, splice1_in_range, list_fmap_delete.
    split; [done|]. split; [|split; [|done]].
    + intros Hi. unfold renumber. rewrite length_imap.
      pose proof (length_delete (chapterContent c) i) as Hd.
      destruct (lookup_lt_is_Some_2 (chapterContent c) i Hi) as [x Hx].
      rewrite (Hd (ex_intro _ x Hx)). lia.
    + intros Hi. rewrite delete_past_end; [done|]. by rewrite length_fmap.
Qed.

Lemma removeLecture_removes_one_witness :
  ∃ c', chapters (removeLecture id_a (Z.of_nat 0) complete_draft) !! 0%nat
        = Some c'
        ∧ lecture_data <$> chapterContent c' = [].
Proof.
  destruct (removeLecture_removes_one id_a complete_draft 0 sample_chapter)
    as [_ H]; [reflexivity|].
  destruct (H eq_refl 0%nat) as (c' & Hc' & Hdata & _).
  exists c'. split; [exact Hc'|]. rewrite Hdata. reflexivity.
Defined.

Lemma with_order_same (l : Lecture) : with_order (lectureOrder l) l = l.
Proof. by destruct l. Qed.

Lemma with_content_same (c : Chapter) : with_content (chapterContent c) c = c.
Proof. by destruct c. Qed.

(** Renumbering a list that is numbered 1..N changes nothing. *)
Lemma renumber_numbered_id (c : list Lecture) : numbered c → renumber c = c.
Proof.
  unfold numbered, renumber. intros Hc. apply list_eq. intros i.
  rewrite list_lookup_imap. destruct (c !! i) as [x|] eqn:Hx; [|done].
  cbn. f_equal.
  assert (Ho : (lectureOrder <$> c) !! i = Some (lectureOrder x))
    by by rewrite list_lookup_fmap, Hx.
  rewrite Hc in Ho. apply lookup_seqZ in Ho as [Ho _].
  replace (Z.of_nat i + 1) with (lectureOrder x) by lia.
  apply with_order_same.
Qed.

Lemma save_then_remove_chapters cid d v ids k (n : nat) (cs : list Chapter) :
  Forall (fun c => chapterId c = cid →
                   numbered (chapterContent c)
                   ∧ length (chapterContent c) = n) cs →
  (fun chapter =>
     if bool_decide (chapterId chapter = cid)
     then with_content
            (renumber (splice1 (Z.of_nat n) (chapterContent chapter)))
            chapter
     else chapter) <$> saveInto cid d v ids k cs
  = cs.
Proof.
  intros H. revert k. induction H as [|c cs Hc Hcs IH]; intros k; [done|].
  cbn [saveInto]. destruct (bool_decide (chapterId c = cid)) eqn:Hb.
  - rewrite fmap_cons, IH. f_equal.
    apply bool_decide_eq_true_1 in Hb as Hid.
    destruct (Hc Hid) as [Hnum Hlen].
    cbn [chapterId with_content]. rewrite Hb.
    cbn [chapterContent with_content].
    rewrite splice1_in_range, <- Hlen, delete_middle, app_nil_r.
    rewrite renumber_numbered_id by done.
    unfold with_content. cbn. by destruct c.
  - rewrite fmap_cons, IH. f_equal. by rewrite Hb.
Qed.

(** Saving a lecture and then removing the last lecture of the chapter gives
    the chapter list back: with lecture lists numbered 1..N (as they always
    are) and n lectures in the chapter the modal is bound to, a successful
    saveLecture followed by removeLecture at position n restores the
    chapters. *)
Theorem save_then_remove_last (ids : nat → jsstr) (s : State) (cid : jsstr)
    (n : nat) :
  currentChapterId s = Some cid → cid ≠ [] →
  trim (Draft.lectureTitle (lectureDetails s)) ≠ [] →
  positive_duration (Draft.lectureDuration (lectureDetails s)) →
  trim (Draft.lectureUrl (lectureDetails s)) ≠ [] →
  Forall (fun c => numbered (chapterContent c)) (chapters s) →
  Forall (fun c => chapterId c = cid → length (chapterContent c) = n)
         (chapters s) →
  chapters (removeLecture cid (Z.of_nat n) (handleSaveLecture ids s).1)
  = chapters s.
Proof.
  intros Hcid Hne Ht Hd Hu Hnum Hlen.
  unfold handleSaveLecture. rewrite Hcid.
  apply not_truthy_cons in Hne. rewrite Hne.
  apply not_truthy_cons in Ht. rewrite Ht.
  destruct (Draft.lectureDuration (lectureDetails s)) as [|v]; [done|].
  apply Qle_bool_positive in Hd. rewrite Hd.
  apply not_truthy_cons in Hu. rewrite Hu.
  cbn. apply save_then_remove_chapters.
  rewrite Forall_forall in Hnum, Hlen |- *. intros c Hc Hid.
  split; [by apply Hnum|by apply Hlen].
Qed.

Lemma save_then_remove_last_witness :
  chapters (removeLecture id_a (Z.of_nat 1)
              (handleSaveLecture fresh_ids two_chapter_modal).1)
  = chapters two_chapter_modal.
Proof.
  apply (save_then_remove_last fresh_ids two_chapter_modal id_a 1).
  - reflexivity.
  - discriminate.
  - discriminate.
  - reflexivity.
  - discriminate.
  - repeat constructor.
  - repeat constructor.
Defined.

(** ** What the handlers leave behind *)

Lemma handleSaveLecture_outcome ids s :
  handleSaveLecture ids s = (s, [])
  ∨ (∃ m, handleSaveLecture ids s = (s, [ToastError m]))
  ∨ (∃ cid d v,
       handleSaveLecture ids s
       = (set_modal false None Draft.empty
            (set_chapters (saveInto cid d v ids 0 (chapters s)) s), [])).
Proof.
  unfold handleSaveLecture.
  destruct (currentChapterId s) as [cid|]; [|by left].
  destruct (negb (truthy cid)); [by left|].
  destruct (negb (truthy (trim _))); [right; left; by eexists|].
  destruct (Draft.lectureDuration _) as [|v]; [right; left; by eexists|].
  destruct (Qle_bool v 0); [right; left; by eexists|].
  destruct (negb (truthy (trim _))); [right; left; by eexists|].
  right. right. by eexists _, _, _.
Qed.

Lemma handleImageChange_outcome file u s :
  handleImageChange file u s = (s, [])
  ∨ (∃ m, handleImageChange file u s = (s, [ToastError m]))
  ∨ (∃ f, handleImageChange file u s
          = (set_thumbnail (Some f) u s,
             (if truthy (imagePreview s)
              then [RevokeObjectURL (imagePreview s)] else [])
             ++ [CreateObjectURL f u])).
Proof.
  unfold handleImageChange. destruct file as [f|]; [|by left].
  destruct (negb _); [right; left; by eexists|].
  destruct (_ <? _)%N; [right; left; by eexists|].
  right. right. by eexists.
Qed.

Lemma handleSubmit_outcome token reply s :
  (∃ m, handleSubmit token reply s = (s, [ToastError m]))
  ∨ (∃ m, handleSubmit token reply s = (s, [GetToken; ToastError m]))
  ∨ (∃ d img tok m,
       handleSubmit token reply s
       = (s, [GetToken; Post d img tok; ToastError m]))
  ∨ (∃ d img tok m,
       handleSubmit token reply s
       = (reset s,
          [GetToken; Post d img tok; ToastSuccess m]
          ++ (if truthy (imagePreview s)
              then [RevokeObjectURL (imagePreview s)] else []))).
Proof.
  unfold handleSubmit.
  destruct (negb _); [left; by eexists|].
  destruct (image s); [|left; by eexists].
  destruct (quill s); [|left; by eexists].
  destruct (negb _); [left; by eexists|].
  destruct (_ =? _)%nat; [left; by eexists|].
  destruct (_ <? _)%nat; [left; by eexists|].
  destruct token as [tok|]; [|right; left; by eexists].
  destruct reply as [data|]; [|right; right; left; by eexists _, _, _, _].
  destruct (success data).
  - right. right. right. by eexists _, _, _, _.
  - right. right. left. by eexists _, _, _, _.
Qed.

Lemma posts_app fx1 fx2 : posts (fx1 ++ fx2) = (posts fx1 + posts fx2)%nat.
Proof.
  induction fx1 as [|e fx1 IH]; [done|]. cbn. destruct e; cbn; lia.
Qed.

Lemma posts_previewCleanup s s' : posts (previewCleanup s s') = 0%nat.
Proof.
  unfold previewCleanup. case_bool_decide; [done|].
  by destruct (truthy _).
Qed.

Lemma network_app fx1 fx2 :
  existsb is_network (fx1 ++ fx2)
  = existsb is_network fx1 || existsb is_network fx2.
Proof. apply existsb_app. Qed.

Lemma network_previewCleanup s s' :
  existsb is_network (previewCleanup s s') = false.
Proof.
  unfold previewCleanup. case_bool_decide; [done|].
  by destruct (truthy _).
Qed.

Lemma step_snd ev s :
  (step ev s).2 = (handle ev s).2 ++ previewCleanup s (handle ev s).1.
Proof. unfold step. by destruct (handle ev s). Qed.

Lemma run_cons_snd ev evs s :
  (run (ev :: evs) s).2 = (step ev s).2 ++ (run evs (step ev s).1).2.
Proof.
  cbn [run]. destruct (step ev s) as [s1 fx1]. cbn [fst snd].
  by destruct (run evs s1).
Qed.

Lemma step_posts ev s :
  (posts (step ev s).2 ≤ (if is_submit ev then 1 else 0))%nat
  ∧ (is_submit ev = false → existsb is_network (step ev s).2 = false).
Proof.
  rewrite step_snd, posts_app, posts_previewCleanup, network_app,
    network_previewCleanup, orb_false_r, Nat.add_0_r.
  destruct ev;
    rewrite ?handle_chapter_add, ?handle_chapter_remove,
      ?handle_chapter_toggle, ?handle_lecture_add, ?handle_lecture_remove;
    cbn [handle snd is_submit posts existsb]; try (split; [lia|done]).
  - destruct (handleSaveLecture_outcome ids s)
      as [->|[(m & ->)|(cid & d & v & ->)]]; by cbn.
  - destruct (handleImageChange_outcome file previewUrl s)
      as [->|[(m & ->)|(f & ->)]]; try by cbn.
    cbn [snd]. by destruct (truthy (imagePreview s)).
  - split; [|done].
    destruct (handleSubmit_outcome token reply s)
      as [(m & ->)|[(m & ->)|[(d & img & tok & m & ->)
                             |(d & img & tok & m & ->)]]];
      cbn; try lia.
    destruct (truthy (imagePreview s)); cbn; lia.
Qed.

(** Only a submission talks to the network: an event that is not a
    submission issues neither the credential request nor the POST, and a
    sequence of events issues at most one POST per submission in it. *)
Theorem only_submit_posts (evs : list Event) (s : State) :
  (posts (run evs s).2 ≤ length (filter (fun ev => is_submit ev = true) evs))%nat
  ∧ (forallb (fun ev => negb (is_submit ev)) evs = true →
     existsb is_network (run evs s).2 = false).
Proof.
  revert s. induction evs as [|ev evs IH]; intros s; [done|].
  rewrite run_cons_snd, posts_app, network_app.
  destruct (step_posts ev s) as [Hp Hn].
  destruct (IH (step ev s).1) as [IHp IHn]. split.
  - rewrite filter_cons. destruct (is_submit ev) eqn:Hev.
    + rewrite decide_True by done. cbn. lia.
    + rewrite decide_False by done. lia.
  - cbn [forallb]. intros Hall. apply andb_prop in Hall as [Hev Hall].
    apply negb_true_iff in Hev. by rewrite Hn, IHn.
Qed.

Lemma only_submit_posts_witness :
  existsb is_network (run three_lectures_remove_first initial).2 = false.
Proof.
  apply (only_submit_posts three_lectures_remove_first initial). reflexivity.
Defined.

(** ** The preview URL is never leaked *)

Lemma liveURLs_app fx1 fx2 live :
  liveURLs (fx1 ++ fx2) live = liveURLs fx2 (liveURLs fx1 live).
Proof.
  revert live. induction fx1 as [|e fx1 IH]; intros live; [done|].
  destruct e; cbn; apply IH.
Qed.

(** Equations between sets of live URLs, by membership. *)
Ltac live_sets :=
  apply set_eq; intros ?;
  repeat first [ rewrite elem_of_union | rewrite elem_of_difference
               | rewrite elem_of_singleton | rewrite elem_of_empty ];
  repeat match goal with H : ∀ _, _ |- _ => clear H end;
  intuition congruence.

Lemma preview_set_spec s :
  preview_set s = if bool_decide (imagePreview s = []) then ∅
                  else {[imagePreview s]}.
Proof. unfold preview_set. by destruct (imagePreview s). Qed.

Lemma step_live ev s :
  url_given ev = true →
  liveURLs (step ev s).2 (preview_set s) = preview_set (step ev s).1.
Proof.
  intros Hurl. rewrite step_snd, step_state, liveURLs_app.
  assert (Hframe : ∀ s' fx,
            handle ev s = (s', fx) → imagePreview s' = imagePreview s →
            (∀ live, liveURLs fx live = live) →
            liveURLs (previewCleanup s (handle ev s).1)
                     (liveURLs (handle ev s).2 (preview_set s))
            = preview_set (handle ev s).1).
  { intros s' fx -> Hp Hfx. cbn [fst snd]. rewrite Hfx.
    unfold previewCleanup, preview_set. rewrite Hp.
    by rewrite bool_decide_eq_true_2. }
  destruct ev;
    rewrite ?handle_chapter_add, ?handle_chapter_remove,
      ?handle_chapter_toggle, ?handle_lecture_add, ?handle_lecture_remove
      in Hframe |- *;
    try (by eapply Hframe).
  - eapply Hframe; [done| |done]. unfold addChapter.
    destruct answer as [title|]; [|done]. by destruct (truthy title).
  - cbn [handle] in *.
    destruct (handleSaveLecture_outcome ids s)
      as [H|[(m & H)|(cid & d & v & H)]]; by eapply Hframe.
  - cbn [handle url_given] in *.
    destruct (handleImageChange_outcome file previewUrl s)
      as [H|[(m & H)|(f & H)]]; try by eapply Hframe.
    rewrite H. cbn [fst snd]. rewrite liveURLs_app.
    unfold previewCleanup, preview_set.
    cbn [imagePreview set_thumbnail]. rewrite Hurl.
    destruct (imagePreview s) as [|a old] eqn:Hold; cbn [truthy].
    + rewrite bool_decide_eq_false_2
        by (intros E; by rewrite <- E in Hurl).
      cbn. live_sets.
    + case_bool_decide as Hsame; cbn.
      * rewrite <- Hsame. live_sets.
      * live_sets.
  - cbn [handle] in *.
    destruct (handleSubmit_outcome token reply s)
      as [(m & H)|[(m & H)|[(d & img & tok & m & H)
                           |(d & img & tok & m & H)]]];
      try by eapply Hframe.
    rewrite H. cbn [fst snd]. rewrite liveURLs_app.
    unfold previewCleanup, preview_set. cbn [imagePreview reset].
    destruct (imagePreview s) as [|a old]; cbn; [done|].
    rewrite bool_decide_eq_false_2 by done. cbn. live_sets.
Qed.

Lemma run_live evs s :
  forallb url_given evs = true →
  liveURLs (run evs s).2 (preview_set s) = preview_set (run evs s).1.
Proof.
  revert s. induction evs as [|ev evs IH]; intros s Hall; [done|].
  cbn [forallb] in Hall. apply andb_prop in Hall as [Hev Hall].
  rewrite run_cons_snd, run_cons, liveURLs_app, step_live by done.
  by apply IH.
Qed.

(** Whatever the user does, the object URLs that are alive are the preview
    of the draft and nothing else (none when the draft has no preview), and
    unmounting the component releases that one too: no preview URL
    outlives its use.  (The browser never hands out the empty string as a
    URL.) *)
Theorem preview_never_leaks (evs : list Event) :
  forallb url_given evs = true →
  let s := (run evs initial).1 in
  liveURLs (run evs initial).2 ∅
  = (if bool_decide (imagePreview s = []) then ∅ else {[imagePreview s]})
  ∧ liveURLs ((run evs initial).2 ++ unmount s) ∅ = ∅.
Proof.
  intros Hall s. pose proof (run_live evs initial Hall) as H.
  change (preview_set initial) with (∅ : gset jsstr) in H.
  split.
  - by rewrite H, preview_set_spec.
  - rewrite liveURLs_app, H. unfold unmount, preview_set. fold s.
    destruct (truthy (imagePreview s)); cbn; [live_sets|done].
Qed.

Lemma preview_never_leaks_witness :
  liveURLs (run [first_thumbnail; second_thumbnail] initial).2 ∅
  = {[blob_2]}.
Proof.
  destruct (preview_never_leaks [first_thumbnail; second_thumbnail])
    as [H _]; [reflexivity|].
  rewrite H. reflexivity.
Defined.

(** ** Chapter ids *)

Lemma ids_fmap_keep (f : Chapter → Chapter) (cs : list Chapter) :
  (∀ c, chapterId (f c) = chapterId c) →
  chapterId <$> (f <$> cs) = chapterId <$> cs.
Proof.
  intros Hf. rewrite <- list_fmap_compose.
  apply list_fmap_ext. intros _ c _. apply Hf.
Qed.

Lemma ids_saveInto cid d v ids k (cs : list Chapter) :
  chapterId <$> saveInto cid d v ids k cs = chapterId <$> cs.
Proof.
  revert k. induction cs as [|c cs IH]; intros k; [done|].
  cbn. case_bool_decide; cbn; f_equal; apply IH.
Qed.

Lemma handle_ids_nodup ev s :
  NoDup (chapter_ids s) →
  match ev with
  | ChapterAdd _ fresh => fresh ∉ chapter_ids s
  | _ => True
  end →
  NoDup (chapter_ids (handle ev s).1).
Proof.
  unfold chapter_ids. intros Hnd Hfresh. by_event ev; try done.
  - unfold addChapter. destruct answer as [title|]; [|done].
    destruct (truthy title); [|done]. cbn.
    rewrite fmap_app. apply NoDup_app. split; [done|]. split.
    + intros x Hx. cbn. rewrite list_elem_of_singleton. by intros ->.
    + apply NoDup_singleton.
  - cbn. eapply sublist_NoDup; [exact Hnd|].
    apply fmap_sublist, sublist_filter.
  - cbn. rewrite ids_fmap_keep; [done|]. intros c. by case_bool_decide.
  - cbn. rewrite ids_fmap_keep; [done|]. intros c. by case_bool_decide.
  - destruct (handleSaveLecture_state ids s) as [->|(cid & d & v & ->)];
      [done|]. cbn. by rewrite ids_saveInto.
  - by destruct (handleImageChange_state file previewUrl s) as [->|(f & ->)].
  - destruct (handleSubmit_state token reply s) as [-> | ->];
      [done|constructor].
Qed.

Lemma run_ids_nodup evs s :
  NoDup (chapter_ids s) → ids_fresh evs s →
  NoDup (chapter_ids (run evs s).1).
Proof.
  revert s. induction evs as [|ev evs IH]; intros s Hnd Hfresh; [done|].
  cbn [ids_fresh] in Hfresh. destruct Hfresh as [Hev Hrest].
  rewrite run_cons. apply IH; [|done]. rewrite step_state.
  by apply handle_ids_nodup.
Qed.

(** As long as uniqid never repeats an id that a chapter of the draft has,
    the chapters of the draft have pairwise different ids. *)
Theorem chapter_ids_unique (evs : list Event) :
  ids_fresh evs initial →
  NoDup (chapterId <$> chapters (run evs initial).1).
Proof. intros H. apply (run_ids_nodup evs initial); [constructor|done]. Qed.

Lemma chapter_ids_unique_witness :
  NoDup (chapterId <$> chapters (run distinct_ids_session initial).1).
Proof.
  apply (chapter_ids_unique distinct_ids_session).
  cbn [ids_fresh distinct_ids_session]. repeat split.
  - vm_compute. apply not_elem_of_nil.
  - vm_compute. intros H. apply list_elem_of_In in H. cbn in H.
    destruct H as [H|[]]. discriminate.
Defined.

Lemma saveInto_absent cid d v ids k cs :
  cid ∉ chapterId <$> cs → saveInto cid d v ids k cs = cs.
Proof.
  revert k. induction cs as [|c cs IH]; intros k Hc; [done|].
  rewrite fmap_cons, not_elem_of_cons in Hc. destruct Hc as [Hne Hc].
  cbn. rewrite bool_decide_eq_false_2 by done. f_equal. by apply IH.
Qed.

Lemma saveInto_present cid d v ids k cs :
  NoDup (chapterId <$> cs) → cid ∈ chapterId <$> cs →
  total_lectures (saveInto cid d v ids k cs) = S (total_lectures cs).
Proof.
  unfold total_lectures. revert k.
  induction cs as [|c cs IH]; intros k Hnd Hin.
  - by apply elem_of_nil in Hin.
  - rewrite fmap_cons in Hnd, Hin. apply NoDup_cons in Hnd as [Hc Hnd].
    cbn [saveInto]. case_bool_decide as Hid.
    + rewrite Hid in Hc. rewrite saveInto_absent by done.
      cbn. rewrite length_app. cbn. lia.
    + apply elem_of_cons in Hin as [Hin|Hin]; [done|].
      cbn. rewrite IH by done. lia.
Qed.

(** With pairwise different chapter ids, a saveLecture that passes
    validation adds exactly one lecture to the draft when a chapter has the
    bound id.  When no chapter has it, nothing is added and nothing is
    reported, and the modal closes all the same. *)
Theorem saveLecture_adds_one (ids : nat → jsstr) (s : State) (cid : jsstr) :
  currentChapterId s = Some cid → cid ≠ [] →
  trim (Draft.lectureTitle (lectureDetails s)) ≠ [] →
  positive_duration (Draft.lectureDuration (lectureDetails s)) →
  trim (Draft.lectureUrl (lectureDetails s)) ≠ [] →
  NoDup (chapterId <$> chapters s) →
  let s' := (handleSaveLecture ids s).1 in
  (handleSaveLecture ids s).2 = []
  ∧ showPopup s' = false
  ∧ (cid ∈ chapterId <$> chapters s →
     total_lectures (chapters s') = S (total_lectures (chapters s)))
  ∧ (cid ∉ chapterId <$> chapters s → chapters s' = chapters s).
Proof.
  intros Hcid Hne Ht Hd Hu Hnd.
  unfold handleSaveLecture. rewrite Hcid.
  apply not_truthy_cons in Hne. rewrite Hne.
  apply not_truthy_cons in Ht. rewrite Ht.
  destruct (Draft.lectureDuration (lectureDetails s)) as [|v]; [done|].
  apply Qle_bool_positive in Hd. rewrite Hd.
  apply not_truthy_cons in Hu. rewrite Hu.
  cbn. split; [done|]. split; [done|]. split.
  - intros Hin. by apply saveInto_present.
  - intros Hin. by apply saveInto_absent.
Qed.

Lemma saveLecture_adds_one_witness :
  total_lectures (chapters (handleSaveLecture fresh_ids two_chapter_modal).1)
  = 3%nat.
Proof.
  destruct (saveLecture_adds_one fresh_ids two_chapter_modal id_a)
    as (_ & _ & H & _).
  - reflexivity.
  - discriminate.
  - discriminate.
  - reflexivity.
  - discriminate.
  - vm_compute. repeat constructor.
    + intros H. apply list_elem_of_In in H. cbn in H.
      destruct H as [H|[]]. discriminate.
    + apply not_elem_of_nil.
  - rewrite H; [reflexivity|].
    vm_compute. apply list_elem_of_here.
Defined.

(** ** The lecture modal *)

Lemma open_modal_is_bound_witness :
  is_Some (currentChapterId (run open_the_modal initial).1).
Proof. apply (open_modal_is_bound open_the_modal). reflexivity. Defined.

(** * Further properties of the shared context *)

(** ** Ratings *)

Lemma sum_ratings_between (ratings : list Fetched.Rating) (lo hi : Z) :
  Forall (fun r => lo <= Fetched.rating r <= hi) ratings →
  lo * Z.of_nat (length ratings) <= sum_ratings ratings
  <= hi * Z.of_nat (length ratings).
Proof.
  induction 1 as [|r rs Hr Hrs IH]; [cbn; lia|].
  cbn [sum_ratings foldr length]. fold (sum_ratings rs).
  rewrite Nat2Z.inj_succ. lia.
Qed.

(** The average shown lies between the lowest and the highest rating: for
    whole ratings between lo and hi (lo not negative, and the sum in the
    exact range of a double, as it is for up to 2^32 ratings of at most
    five stars), calculateRating returns the text of n tenths with
    10 lo <= n <= 10 hi.  In particular, when every rating is r, the text
    is r with a zero after the point. *)
Theorem calculateRating_within_range (c : Fetched.Course)
    (ratings : list Fetched.Rating) (lo hi : Z) :
  Fetched.courseRatings c = Some ratings →
  ratings ≠ [] →
  0 <= lo →
  Forall (fun r => lo <= Fetched.rating r <= hi) ratings →
  20 * hi * Z.of_nat (length ratings) < 2 ^ 53 →
  ∃ n : Z,
    calculateRating (Some c) = Str (Double.tenths n)
    ∧ 10 * lo <= n <= 10 * hi.
Proof.
  intros Hc Hne Hlo Hall Hb. unfold calculateRating. rewrite Hc.
  destruct ratings as [|r rs]; [done|].
  change (length (r :: rs) =? 0)%nat with false. cbv iota.
  rewrite fold_left_add, Z.add_0_l. fold (sum_ratings (r :: rs)).
  pose proof (sum_ratings_between _ lo hi Hall) as Hs.
  set (s := sum_ratings (r :: rs)) in *.
  set (len := Z.of_nat (length (r :: rs))) in *.
  assert (Hlen : 0 < len) by (subst len; cbn [length]; lia).
  exists (Double.nearest_tenth (Double.div s len)). split; [done|].
  destruct (Z.eq_dec s 0) as [Hz|Hz].
  - rewrite Hz. cbn. nia.
  - assert (Hpos : 0 < s) by nia.
    pose proof (nearest_tenth_div s len Hpos Hlen ltac:(nia)) as Hn.
    cbv zeta in Hn.
    set (n := Double.nearest_tenth (Double.div s len)) in *.
    split.
    + destruct (Z_le_gt_dec (10 * lo) n) as [|Hgt]; [done|].
      assert (n + 1 <= 10 * lo) by lia. nia.
    + destruct (Z_le_gt_dec n (10 * hi)) as [|Hgt]; [done|].
      assert (10 * hi + 1 <= n) by lia. nia.
Qed.

Lemma calculateRating_within_range_witness :
  ∃ n : Z,
    calculateRating (Some (course_rated [4; 5; 5])) = Str (Double.tenths n)
    ∧ 10 * 1 <= n <= 10 * 5.
Proof.
  apply (calculateRating_within_range (course_rated [4; 5; 5])
           (stars [4; 5; 5]) 1 5).
  - reflexivity.
  - discriminate.
  - lia.
  - repeat constructor; cbn; lia.
  - reflexivity.
Defined.

(** ** The number of lectures *)

Lemma lectures_of_nonneg chapter : 0 <= lectures_of chapter.
Proof.
  destruct chapter as [[[content|]]|]; cbn; lia.
Qed.

Lemma lectures_of_zero chapter :
  lectures_of chapter = 0 ↔ without_lectures chapter.
Proof.
  destruct chapter as [[[content|]]|]; cbn; try done.
  destruct content; cbn; split; (done || lia).
Qed.

Lemma sum_lectures_nonneg content : 0 <= sum_lectures content.
Proof.
  induction content as [|ch content IH]; cbn; [done|].
  fold (sum_lectures content). pose proof (lectures_of_nonneg ch). lia.
Qed.

(** With a courseContent array the number of lectures is a number that is
    never negative, is zero exactly when no chapter has a lecture (missing
    chapters and missing or empty lecture lists count for nothing), and for
    chapters put one after the other it is the sum of the two numbers. *)
Theorem calculateNoOfLectures_counts (c : Fetched.Course)
    (content : list (option Fetched.Chapter)) :
  Fetched.courseContent c = Some content →
  ∃ n : Z,
    calculateNoOfLectures (Some c) = Number n
    ∧ 0 <= n
    ∧ (n = 0 ↔ Forall without_lectures content)
    ∧ ∀ c1 c2 a b,
        content = a ++ b →
        Fetched.courseContent c1 = Some a →
        Fetched.courseContent c2 = Some b →
        ∃ n1 n2, calculateNoOfLectures (Some c1) = Number n1
                 ∧ calculateNoOfLectures (Some c2) = Number n2
                 ∧ n = n1 + n2.
Proof.
  intros Hc. exists (sum_lectures content).
  split; [by apply calculateNoOfLectures_sum|].
  split; [apply sum_lectures_nonneg|]. split.
  - induction content as [|ch content IH] in c, Hc |- *; [by split|].
    cbn [sum_lectures foldr]. fold (sum_lectures content).
    pose proof (lectures_of_nonneg ch).
    pose proof (sum_lectures_nonneg content).
    rewrite Forall_cons, <- lectures_of_zero.
    specialize (IH {| Fetched.courseRatings := None;
                      Fetched.courseContent := Some content |} eq_refl).
    rewrite <- IH. lia.
  - intros c1 c2 a b -> Ha Hb. exists (sum_lectures a), (sum_lectures b).
    split; [by apply calculateNoOfLectures_sum|].
    split; [by apply calculateNoOfLectures_sum|].
    unfold sum_lectures. rewrite foldr_app.
    induction a as [|x a IH] in c1, Ha |- *; cbn; [done|].
    rewrite (IH {| Fetched.courseRatings := None;
                   Fetched.courseContent := Some a |} eq_refl). lia.
Qed.

Lemma calculateNoOfLectures_counts_witness :
  ∃ n : Z,
    calculateNoOfLectures (Some course_three_chapters) = Number n ∧ 0 <= n.
Proof.
  destruct (calculateNoOfLectures_counts course_three_chapters
              [Some {| Fetched.chapterContent := Some [sample_lecture] |};
               Some {| Fetched.chapterContent := None |};
               Some {| Fetched.chapterContent := Some [sample_lecture] |}])
    as (n & Hn & Hpos & _); [reflexivity|].
  exists n. split; [exact Hn|exact Hpos].
Defined.

(** ** fetchUserData *)

(** fetchUserData never leaves the loading flag set: in the variant with the
    not-found branch the flag is off after every call, with or without a
    user; in the other variant it is off after every call made with a user,
    and a call without a user changes nothing at all. *)
Theorem fetchUserData_ends_loading (user : option ClerkUser) (u : ClerkUser)
    (token : Awaited (option jsstr)) (reply : Awaited UserResponse)
    (c : Context) :
  userDataLoading (Part001.fetchUserData user token reply c).1 = false
  ∧ userDataLoading (Part002.fetchUserData (Some u) token reply c).1 = false
  ∧ Part002.fetchUserData None token reply c = (c, []).
Proof.
  split; [|split; [|done]].
  - unfold Part001.fetchUserData. destruct user as [v|]; [|done].
    destruct token as [tok|status sm m].
    + destruct (token_missing tok); [done|].
      destruct reply as [data|status sm m].
      * by destruct (r_success data), (r_user data).
      * by repeat case_bool_decide.
    + by repeat case_bool_decide.
  - unfold Part002.fetchUserData.
    destruct token as [tok|status sm m].
    + destruct (token_missing tok); [done|].
      destruct reply as [data|status sm m].
      * by destruct (r_success data).
      * by case_bool_decide.
    + by case_bool_decide.
Qed.

(** In the variant with the not-found branch, a profile is only ever cleared
    by a 401: when a profile was loaded and fetchUserData leaves none, the
    credential or the request was answered with status 401.  Once the
    request itself resolves, a profile is always stored (the backend's, or
    the one made from the session) and nothing is reported. *)
Theorem part001_profile_cleared_only_by_401 (user : option ClerkUser)
    (token : Awaited (option jsstr)) (reply : Awaited UserResponse)
    (c : Context) :
  (userData c ≠ None →
   userData (Part001.fetchUserData user token reply c).1 = None →
   answered_401 token reply)
  ∧ (∀ u tok data,
       user = Some u → token = Resolved (Some tok) → tok ≠ [] →
       reply = Resolved data →
       userData (Part001.fetchUserData user token reply c).1 ≠ None
       ∧ (Part001.fetchUserData user token reply c).2 = []).
Proof.
  split.
  - intros Hc. unfold Part001.fetchUserData, answered_401.
    destruct user as [v|]; [|done].
    destruct token as [tok|status sm m].
    + destruct (token_missing tok); [done|].
      destruct reply as [data|status sm m].
      * by destruct (r_success data), (r_user data).
      * case_bool_decide; [done|]. by case_bool_decide.
    + case_bool_decide; [done|]. by case_bool_decide.
  - intros u tok data -> -> Htok ->. unfold Part001.fetchUserData.
    cbn [token_missing]. apply not_truthy_cons in Htok. rewrite Htok.
    by destruct (r_success data), (r_user data).
Qed.

Lemma part001_profile_cleared_only_by_401_witness :
  userData (Part001.fetchUserData (Some session_user) token_ok user_found
              signed_in).1 ≠ None.
Proof.
  apply (proj2 (part001_profile_cleared_only_by_401 (Some session_user)
                  token_ok user_found signed_in)
           session_user (lit "eyJhbGciOi")
           {| r_success := true;
              r_user := Some {| document := lit "{}" |};
              r_message := None |});
    [reflexivity|reflexivity|discriminate|reflexivity].
Defined.

(** ** fetchAllCourses *)



(** ** fetchUserEnrolledCourses *)

Lemma fetchUserEnrolledCourses_state user token reply p :
  (Part002Provider.fetchUserEnrolledCourses user token reply p).1 = p
  ∨ ∃ data,
      reply = Resolved data ∧ e_success data = true
      ∧ Part002Provider.fetchUserEnrolledCourses user token reply p
        = (set_enrolledCourses
             (match e_enrolledCourses data with
              | Some courses => reverse courses
              | None => []
              end) p, []).
Proof.
  unfold Part002Provider.fetchUserEnrolledCourses.
  destruct user as [u|]; [|by left].
  destruct token as [tok|status sm m].
  - destruct (token_missing tok); [by left|].
    destruct reply as [data|status sm m].
    + destruct (e_success data) eqn:Hs; [right; by eexists|].
      left. by case_bool_decide.
    + left. by repeat case_bool_decide.
  - left. by repeat case_bool_decide.
Qed.



(** ** The two fetches together *)

(** In the variant that does not merge the enrolment into the profile, the
    two fetches the authentication effect starts write to different parts of
    the state, so the state they leave does not depend on which of them
    settles first; refreshUserData, which runs them one after the other,
    ends in that same state.  Signing out afterwards leaves no profile, no
    enrolled course and no educator flag, and keeps the catalog. *)
Theorem fetches_commute (user : option ClerkUser)
    (token1 : Awaited (option jsstr)) (reply1 : Awaited UserResponse)
    (token2 : Awaited (option jsstr)) (reply2 : Awaited EnrolledResponse)
    (p : Provider) :
  let profile_first :=
    (Part002Provider.fetchUserEnrolledCourses user token2 reply2
       (Part002Provider.fetchUserData user token1 reply1 p).1).1 in
  let enrolled_first :=
    (Part002Provider.fetchUserData user token1 reply1
       (Part002Provider.fetchUserEnrolledCourses user token2 reply2 p).1).1 in
  profile_first = enrolled_first
  ∧ (is_Some user →
     (Part002Provider.refreshUserData user true token1 reply1 token2 reply2
        p).1 = profile_first)
  ∧ userData (profile (Part002Provider.signed_out profile_first)) = None
  ∧ enrolledCourses (Part002Provider.signed_out profile_first) = []
  ∧ isEducator (Part002Provider.signed_out profile_first) = false
  ∧ allCourses (Part002Provider.signed_out profile_first) = allCourses p.
Proof.
  intros profile_first enrolled_first.
  assert (Hfirst : ∀ q,
            (Part002Provider.fetchUserData user token1 reply1 q).1
            = set_profile
                (Part002.fetchUserData user token1 reply1 (profile q)).1 q).
  { intros q. unfold Part002Provider.fetchUserData.
    by destruct (Part002.fetchUserData user token1 reply1 (profile q)). }
  assert (Hcat : allCourses profile_first = allCourses p).
  { subst profile_first. rewrite Hfirst.
    by destruct (fetchUserEnrolledCourses_state user token2 reply2
                   (set_profile
                      (Part002.fetchUserData user token1 reply1
                         (profile p)).1 p))
      as [->|(data & _ & _ & ->)]. }
  split; [|split; [|by repeat split]].
  - subst profile_first enrolled_first. rewrite !Hfirst.
    unfold Part002Provider.fetchUserEnrolledCourses.
    destruct user as [u|]; [|done].
    destruct token2 as [tok|status sm m].
    + destruct (token_missing tok); [done|].
      destruct reply2 as [data|status sm m].
      * destruct (e_success data); [done|]. by case_bool_decide.
      * by repeat case_bool_decide.
    + by repeat case_bool_decide.
  - intros [u ->]. subst profile_first.
    unfold Part002Provider.refreshUserData.
    destruct (Part002Provider.fetchUserData (Some u) token1 reply1 p)
      as [p1 fx1]. cbn [fst].
    by destruct (Part002Provider.fetchUserEnrolledCourses (Some u) token2
                   reply2 p1).
Qed.

Lemma fetches_commute_witness :
  (Part002Provider.refreshUserData (Some session_user) true token_ok
     user_found token_ok enrolled_two sample_provider).1
  = (Part002Provider.fetchUserEnrolledCourses (Some session_user) token_ok
       enrolled_two
       (Part002Provider.fetchUserData (Some session_user) token_ok user_found
          sample_provider).1).1.
Proof.
  apply (fetches_commute (Some session_user) token_ok user_found token_ok
           enrolled_two sample_provider).
  exists session_user. reflexivity.
Defined.

(** ** Durations *)

Lemma Qplus_assoc_eq (x y z : Q) : (x + (y + z) = x + y + z)%Q.
Proof.
  destruct x as [a b], y as [c d], z as [e f]. unfold Qplus. cbn.
  f_equal; [|by rewrite Pos.mul_assoc].
  rewrite !Pos2Z.inj_mul. ring.
Qed.

Lemma Qplus_0_r_eq (x : Q) : (x + 0 = x)%Q.
Proof.
  destruct x as [a b]. unfold Qplus. cbn.
  f_equal; [lia|by rewrite Pos.mul_1_r].
Qed.

Lemma Qplus_0_l_eq (x : Q) : (0 + x = x)%Q.
Proof. destruct x as [a b]. unfold Qplus. cbn. f_equal. lia. Qed.

Lemma fold_minutes (content : list Lecture) (a : Q) :
  fold_left (fun acc lec => acc + lectureDuration lec)%Q content a
  = (a + fold_left (fun acc lec => acc + lectureDuration lec)%Q content 0)%Q.
Proof.
  revert a. induction content as [|l content IH]; intros a; cbn [fold_left].
  - by rewrite Qplus_0_r_eq.
  - rewrite IH, (IH (0 + lectureDuration l)%Q), Qplus_0_l_eq.
    by rewrite Qplus_assoc_eq.
Qed.

Lemma course_fold (content : list (option Fetched.Chapter)) (a : Q) :
  fold_left
    (fun time ch =>
       match ch with
       | Some chapter =>
           match Fetched.chapterContent chapter with
           | Some lectures =>
               fold_left (fun time lec => time + lectureDuration lec)%Q
                         lectures time
           | None => time
           end
       | None => time
       end) content a
  = (a + sum_minutes content)%Q.
Proof.
  revert a. induction content as [|ch content IH]; intros a;
    cbn [fold_left sum_minutes foldr].
  - by rewrite Qplus_0_r_eq.
  - fold (sum_minutes content). rewrite IH, Qplus_assoc_eq. f_equal.
    destruct ch as [[[lectures|]]|];
      cbn [chapter_minutes Fetched.chapterContent].
    + apply fold_minutes.
    + by rewrite Qplus_0_r_eq.
    + by rewrite Qplus_0_r_eq.
Qed.

Lemma course_minutes_sum (c : Fetched.Course) content :
  Fetched.courseContent c = Some content →
  course_minutes (Some c) = sum_minutes content.
Proof.
  intros Hc. unfold course_minutes. rewrite Hc.
  by rewrite course_fold, Qplus_0_l_eq.
Qed.

(** Whatever humanizeDuration prints, the duration of a course is printed
    from the sum of the minutes of its chapters (for whole minutes, which
    the engine adds exactly): a course with one chapter shows what
    calculateChapterTime shows for that chapter, and a course without
    courseContent, or no course, shows what a chapter without lectures
    shows, the text of zero. *)
Theorem calculateCourseDuration_sums (humanizeDuration : Q → jsstr) :
  (∀ (c : Fetched.Course) content,
     Fetched.courseContent c = Some content →
     whole_minutes content →
     calculateCourseDuration humanizeDuration (Some c)
     = humanizeDuration (sum_minutes content * 60 * 1000)%Q)
  ∧ (∀ (c : Fetched.Course) chapter,
       Fetched.courseContent c = Some [chapter] →
       calculateCourseDuration humanizeDuration (Some c)
       = calculateChapterTime humanizeDuration chapter)
  ∧ (∀ c : Fetched.Course,
       Fetched.courseContent c = None →
       calculateCourseDuration humanizeDuration (Some c)
       = calculateChapterTime humanizeDuration None)
  ∧ calculateCourseDuration humanizeDuration None
    = calculateChapterTime humanizeDuration None.
Proof.
  split; [|split; [|split; [|done]]].
  - intros c content Hc _. unfold calculateCourseDuration.
    by rewrite (course_minutes_sum c content Hc).
  - intros c chapter Hc. unfold calculateCourseDuration, calculateChapterTime.
    rewrite (course_minutes_sum c [chapter] Hc). cbn [sum_minutes foldr].
    by rewrite Qplus_0_r_eq.
  - intros c Hc. unfold calculateCourseDuration, calculateChapterTime.
    unfold course_minutes. by rewrite Hc.
Qed.

Lemma calculateCourseDuration_sums_witness :
  calculateCourseDuration show_milliseconds (Some one_chapter_course)
  = lit "1440000".
Proof.
  rewrite (proj1 (calculateCourseDuration_sums show_milliseconds)
             one_chapter_course
             [Some {| Fetched.chapterContent :=
                        Some [sample_lecture; sample_lecture] |}]);
    [|reflexivity|repeat constructor].
  vm_compute. reflexivity.
Defined.
